(** * CoughAI: the audio analysis pipeline and the rule-based cough classifier

    A shallow embedding of [lib/audio-processor.ts] (class [AudioProcessor])
    and of [lib/cough-classifier.ts] (class [RuleBasedCoughModel], which
    [CoughClassifier] delegates to), and the properties of both.

    The code is embedded once, over an interface of the JavaScript number
    operations it uses, and read at two instances:
    - [float_number]: IEEE-754 binary64, the numbers the program runs on,
      with NaN, signed zeros and rounding;
    - [real_number]: the real numbers, the ideal arithmetic in which the
      formulas of the signal-processing functions are stated.
    Lengths, loop indices and counters are integers ([nat] and [Z]). *)

From Stdlib Require Import String ZArith Bool List Permutation Lia QArith Qabs.
From Stdlib Require Import Floats Reals Lra Sorted.
From Stdlib Require DecimalString.
Import ListNotations.

Set Warnings "-inexact-float".

Set Implicit Arguments.

(** ** Exceptions *)

(** A call either returns a value or throws; an exception is identified by
    the [name] property of the thrown error object. *)
Inductive outcome (A : Type) : Type :=
| Return (a : A)
| Throw (name : string).

Arguments Return {A} a.
Arguments Throw {A} name.

Definition bind {A B : Type} (c : outcome A) (k : A -> outcome B) : outcome B :=
  match c with
  | Return a => k a
  | Throw e => Throw e
  end.

Notation "x <- c ;; k" := (bind c (fun x => k))
  (at level 61, c at next level, right associativity).

(** ** JavaScript numbers *)

(** The arithmetic of the number type.  [lit q] is the value of the decimal
    literal that denotes the fraction [q]; [of_int z] is the number holding
    the integer [z]; [lt a b] is [a < b] (so [a > b] is [lt b a]) and
    [ge a b] is [a >= b]; [fround] is the conversion applied by a store into
    a [Float32Array]; [NaN] is the number that [undefined], the result of
    reading a typed array out of range, converts to. *)
Class JsNumber (num : Type) : Type := {
  lit : Q -> num;
  of_int : Z -> num;
  add : num -> num -> num;
  sub : num -> num -> num;
  mul : num -> num -> num;
  div : num -> num -> num;
  lt : num -> num -> bool;
  ge : num -> num -> bool;
  Math_sqrt : num -> num;
  Math_min : num -> num -> num;
  Math_PI : num;
  fround : num -> num;
  NaN : num
}.

(** The transcendental functions of [Math], which ECMAScript leaves to the
    implementation to approximate. *)
Class JsMath (num : Type) : Type := {
  Math_cos : num -> num;
  Math_sin : num -> num;
  Math_log : num -> num
}.

Arguments lit {num _} q%_Q.

Declare Scope js_scope.
Delimit Scope js_scope with js.
Infix "+" := add : js_scope.
Infix "-" := sub : js_scope.
Infix "*" := mul : js_scope.
Infix "/" := div : js_scope.

(** *** Binary64 *)

Module Binary64.

Definition of_Z (z : Z) : float :=
  match z with
  | Z0 => 0%float
  | Zpos _ => PrimFloat.of_uint63 (Uint63.of_Z z)
  | Zneg p => (- PrimFloat.of_uint63 (Uint63.of_Z (Zpos p)))%float
  end.

(** A decimal literal is read as the double nearest to it; for the
    literals of this program that is the correctly rounded quotient of
    numerator and denominator, both exact doubles. *)
Definition of_Q (q : Q) : float :=
  (of_Z (Qnum q) / of_Z (Zpos (Qden q)))%float.

(** [Math.min]: NaN if an argument is NaN, and -0 below +0. *)
Definition min (x y : float) : float :=
  if (PrimFloat.is_nan x || PrimFloat.is_nan y)%bool then PrimFloat.nan
  else if (x <? y)%float then x
  else if (y <? x)%float then y
  else if PrimFloat.get_sign x then x else y.

(** [Math.fround]: round to nearest binary32, ties to even. *)
Definition to_single (x : float) : float :=
  match Prim2SF x with
  | S754_finite s m e =>
      SF2Prim (SpecFloat.binary_normalize 24 128
                 (if s then Zneg m else Zpos m) e s)
  | _ => x
  end.

Definition PI : float := 0x1.921fb54442d18p+1%float.

(** The exact value of a finite double. *)
Definition to_Q (x : float) : option Q :=
  match Prim2SF x with
  | S754_zero _ => Some 0%Q
  | S754_finite s m e =>
      Some (inject_Z (if s then Zneg m else Zpos m) * Qpower 2 e)%Q
  | _ => None
  end.

End Binary64.

#[export] Instance float_number : JsNumber float := {|
  lit := Binary64.of_Q;
  of_int := Binary64.of_Z;
  add := PrimFloat.add;
  sub := PrimFloat.sub;
  mul := PrimFloat.mul;
  div := PrimFloat.div;
  lt := PrimFloat.ltb;
  ge := fun a b => PrimFloat.leb b a;
  Math_sqrt := PrimFloat.sqrt;
  Math_min := Binary64.min;
  Math_PI := Binary64.PI;
  fround := Binary64.to_single;
  NaN := PrimFloat.nan
|}.

(** [Math.cos], [Math.sin] and [Math.log] on doubles are parameters. *)
Definition float_math (cos sin log : float -> float) : JsMath float :=
  {| Math_cos := cos; Math_sin := sin; Math_log := log |}.

(** *** Ideal arithmetic *)

(** The real numbers have no rounding and no NaN: [fround] is the identity,
    and [NaN] is a placeholder, which the results stated over the reals do
    not depend on (they concern reads in range only). *)
#[export] Instance real_number : JsNumber R := {|
  lit := Q2R;
  of_int := IZR;
  add := Rplus;
  sub := Rminus;
  mul := Rmult;
  div := Rdiv;
  lt := fun a b => if Rlt_dec a b then true else false;
  ge := fun a b => if Rle_dec b a then true else false;
  Math_sqrt := sqrt;
  Math_min := Rmin;
  Math_PI := PI;
  fround := fun x => x;
  NaN := 0%R
|}.

#[export] Instance real_math : JsMath R := {|
  Math_cos := cos;
  Math_sin := sin;
  Math_log := ln
|}.

(** ** Typed arrays *)

Section TypedArrays.
Context {num : Type} {JN : JsNumber num}.

Definition of_nat (n : nat) : num := of_int (Z.of_nat n).

Definition zero : num := lit 0.

(** [new Float32Array(n)]: [n] zeros, and a [RangeError] when [n] is
    negative. *)
Definition new_Float32Array (n : Z) : outcome (list num) :=
  if (n <? 0)%Z then Throw "RangeError"
  else Return (repeat zero (Z.to_nat n)).

(** [a[i]] in an arithmetic context: out of range it is [undefined], which
    arithmetic turns into NaN. *)
Definition get (a : list num) (i : nat) : num := nth i a NaN.

(** [a[i]] as it is: [None] is [undefined]. *)
Definition get_opt (a : list num) (i : nat) : option num := nth_error a i.

Fixpoint update (a : list num) (i : nat) (v : num) : list num :=
  match a, i with
  | [], _ => []
  | _ :: r, O => v :: r
  | x :: r, S j => x :: update r j v
  end.

(** [a[i] = v]: the value is rounded to single precision; a store out of
    range does nothing. *)
Definition set (a : list num) (i : nat) (v : num) : list num :=
  update a i (fround v).

(** [a.slice(start, end)] for [0 <= start <= end]. *)
Definition slice (a : list num) (start stop : nat) : list num :=
  firstn (stop - start) (skipn start a).

(** [for (let i = from; i < to; i++) body], threading the state. *)
Definition for_loop {S : Type} (from to : nat) (body : nat -> S -> S)
    (init : S) : S :=
  fold_left (fun s i => body i s) (seq from (to - from)) init.

End TypedArrays.

(** ** lib/audio-processor.ts *)

Record AudioBuffer (num : Type) : Type := {
  channelData : list num;
  sampleRate : num
}.

Record CoughAnalysis (num : Type) : Type := {
  duration : num;
  rms : num;
  zeroCrossingRate : num;
  spectralCentroid : num;
  mfccFeatures : list num;
  timestamp : Z
}.

Section AudioProcessor.
Context {num : Type} {JN : JsNumber num} {JM : JsMath num}.
Local Open Scope js_scope.

(** [AudioBuffer.duration], which Web Audio defines as the number of
    sample frames over the sample rate. *)
Definition buffer_duration (b : AudioBuffer num) : num :=
  of_nat (length (channelData b)) / sampleRate b.

Definition preEmphasis (signal : list num) (alpha : num) : list num :=
  let result := repeat zero (length signal) in
  let result := set result 0 (get signal 0) in
  for_loop 1 (length signal)
    (fun i result => set result i (get signal i - alpha * get signal (i - 1)))
    result.

Definition applyHammingWindow (frame : list num) : list num :=
  let windowed := repeat zero (length frame) in
  let N := length frame in
  for_loop 0 N
    (fun n windowed =>
       let window :=
         lit 0.54 - lit 0.46 *
           Math_cos ((lit 2 * Math_PI * of_nat n) / of_int (Z.of_nat N - 1)) in
       set windowed n (get frame n * window))
    windowed.

(** The inner loop of [computeFFT] for the output index [k]: the pair
    [(realSum, imagSum)]. *)
Definition fourierSums (signal : list num) (k : nat) : num * num :=
  let N := length signal in
  for_loop 0 N
    (fun n '(realSum, imagSum) =>
       let angle := (lit (-2) * Math_PI * of_nat k * of_nat n) / of_nat N in
       (realSum + get signal n * Math_cos angle,
        imagSum + get signal n * Math_sin angle))
    (zero, zero).

Definition computeFFT (signal : list num) : list num :=
  let N := length signal in
  let result := repeat zero (N * 2) in
  for_loop 0 N
    (fun k result =>
       let '(realSum, imagSum) := fourierSums signal k in
       let result := set result (k * 2) realSum in
       set result (k * 2 + 1) imagSum)
    result.

(** The first loop of [computeMFCC]: the power spectrum of a transform. *)
Definition powerSpectrumOf (fft : list num) : list num :=
  let powerSpectrum := repeat zero (length fft / 2) in
  for_loop 0 (length powerSpectrum)
    (fun i powerSpectrum =>
       let real := get fft (i * 2) in
       let imag := get fft (i * 2 + 1) in
       set powerSpectrum i (real * real + imag * imag))
    powerSpectrum.

(** The inner loop of [computeMFCC] for the coefficient [i]. *)
Definition cepstralSum (powerSpectrum : list num) (i : nat) : num :=
  for_loop 0 (length powerSpectrum)
    (fun j sum =>
       sum + Math_log (get powerSpectrum j + lit 1e-10) *
             Math_cos ((Math_PI * of_nat i * (of_nat j + lit 0.5))
                       / of_nat (length powerSpectrum)))
    zero.

Definition computeMFCC (frame : list num) (sampleRate : num) : list num :=
  let mfcc := repeat zero 13 in
  let fft := computeFFT frame in
  let powerSpectrum := powerSpectrumOf fft in
  for_loop 0 13
    (fun i mfcc => let sum := cepstralSum powerSpectrum i in set mfcc i sum)
    mfcc.

Definition windowSize : Z := 2048.
Definition hopSize : Z := 512.

(** [Math.floor((length - windowSize) / hopSize) + 1] on the integer
    [length]: the quotient by 512 is exact in binary64, and its floor is
    the floor division of [Z]. *)
Definition numFrames (length : Z) : Z :=
  ((length - windowSize) / hopSize + 1)%Z.

Definition extractMFCCFeatures (audioBuffer : AudioBuffer num)
    : outcome (list num) :=
  let channelData := channelData audioBuffer in
  let sampleRate := sampleRate audioBuffer in
  let preEmphasized := preEmphasis channelData (lit 0.97) in
  let numFrames := numFrames (Z.of_nat (length preEmphasized)) in
  mfccFeatures <- new_Float32Array (numFrames * 13) ;;
  Return
    (for_loop 0 (Z.to_nat numFrames)
       (fun frame mfccFeatures =>
          let start := (frame * Z.to_nat hopSize)%nat in
          let frameData :=
            slice preEmphasized start (start + Z.to_nat windowSize) in
          let windowed := applyHammingWindow frameData in
          let mfcc := computeMFCC windowed sampleRate in
          for_loop 0 13
            (fun i mfccFeatures =>
               set mfccFeatures (frame * 13 + i) (get mfcc i))
            mfccFeatures)
       mfccFeatures).

Definition calculateRMS (signal : list num) : num :=
  let sum :=
    for_loop 0 (length signal)
      (fun i sum => sum + get signal i * get signal i) zero in
  Math_sqrt (sum / of_nat (length signal)).

Definition calculateZeroCrossingRate (signal : list num) : num :=
  let crossings :=
    for_loop 1 (length signal)
      (fun i crossings =>
         if negb (Bool.eqb (ge (get signal i) zero) (ge (get signal (i - 1)) zero))
         then S crossings else crossings)
      O in
  of_nat crossings / of_nat (length signal).

Definition calculateSpectralCentroid (signal : list num) (sampleRate : num)
    : num :=
  let fft := computeFFT signal in
  let powerSpectrum_length := (length fft / 2)%nat in
  let '(weightedSum, magnitudeSum) :=
    for_loop 0 powerSpectrum_length
      (fun i '(weightedSum, magnitudeSum) =>
         let real := get fft (i * 2) in
         let imag := get fft (i * 2 + 1) in
         let magnitude := Math_sqrt (real * real + imag * imag) in
         let frequency :=
           (of_nat i * sampleRate) / (lit 2 * of_nat powerSpectrum_length) in
         (weightedSum + frequency * magnitude, magnitudeSum + magnitude))
      (zero, zero) in
  if lt zero magnitudeSum then weightedSum / magnitudeSum else zero.

(** [now] is the value of [Date.now()] at the call. *)
Definition analyzeCoughCharacteristics (now : Z) (audioBuffer : AudioBuffer num)
    : outcome (CoughAnalysis num) :=
  let channelData := channelData audioBuffer in
  let duration := buffer_duration audioBuffer in
  let rms := calculateRMS channelData in
  let zcr := calculateZeroCrossingRate channelData in
  let spectralCentroid :=
    calculateSpectralCentroid channelData (sampleRate audioBuffer) in
  mfccFeatures <- extractMFCCFeatures audioBuffer ;;
  Return {| duration := duration;
            rms := rms;
            zeroCrossingRate := zcr;
            spectralCentroid := spectralCentroid;
            mfccFeatures := mfccFeatures;
            timestamp := now |}.

End AudioProcessor.

(** ** The cough classifier *)

Inductive Confidence : Type := low | medium | high.

Record ConditionProbability (num : Type) : Type := {
  name : string;
  probability : num;
  confidence : Confidence
}.

Record CoughClassification (num : Type) : Type := {
  conditions : list (ConditionProbability num);
  dominantCondition : string;
  overallConfidence : Confidence;
  analysisTimestamp : Z
}.

Section ArraySort.
Context {num : Type} {JN : JsNumber num} {A : Type}.
Variable compareFn : A -> A -> num.

(** [Array.prototype.sort] is stable: [x], which stood before every
    element of [l], moves behind [y] only if [compareFn x y > 0]. *)
Fixpoint sort_insert (x : A) (l : list A) : list A :=
  match l with
  | [] => [x]
  | y :: r =>
      if lt zero (compareFn x y) then y :: sort_insert x r else x :: l
  end.

Definition Array_sort (l : list A) : list A :=
  fold_right sort_insert [] l.

End ArraySort.

Section RuleBasedCoughModel.
Context {num : Type} {JN : JsNumber num}.
Local Open Scope js_scope.
Local Open Scope string_scope.

(** [mfccFeatures[i + 2] > 0.5 && mfccFeatures[i + 3] < -0.3]; a
    comparison with [undefined] is false. *)
Definition wheezingPattern (mfccFeatures : list num) (i : nat) : bool :=
  match get_opt mfccFeatures (i + 2) with
  | Some c2 =>
      lt (lit 0.5) c2 &&
      match get_opt mfccFeatures (i + 3) with
      | Some c3 => lt c3 (lit (-0.3))
      | None => false
      end
  | None => false
  end.

(** [for (let i = 0; i < mfccFeatures.length; i += 13)]; the loop runs at
    most [mfccFeatures.length] times, which bounds the fuel. *)
Fixpoint wheezingLoop (mfccFeatures : list num)
    (fuel i wheezingIndicators : nat) : nat :=
  match fuel with
  | O => wheezingIndicators
  | S fuel =>
      if (i <? length mfccFeatures)%nat then
        wheezingLoop mfccFeatures fuel (i + 13)
          (if wheezingPattern mfccFeatures i
           then S wheezingIndicators else wheezingIndicators)
      else wheezingIndicators
  end.

Definition Qlt_bool (a b : Q) : bool := negb (Qle_bool b a).

(** [wheezingIndicators > mfccFeatures.length / 26] compares an integer
    with an integer over 26; it is taken exactly, as a comparison of
    fractions. *)
Definition detectWheezing (mfccFeatures : list num) : bool :=
  let wheezingIndicators :=
    wheezingLoop mfccFeatures (length mfccFeatures) O O in
  Qlt_bool (inject_Z (Z.of_nat (length mfccFeatures)) / 26)
           (inject_Z (Z.of_nat wheezingIndicators)).

Definition confidenceOf (score : num) : Confidence :=
  if lt (lit 0.6) score then high
  else if lt (lit 0.3) score then medium
  else low.

Definition covidScore (analysis : CoughAnalysis num) : num :=
  let covidScore := zero in
  let covidScore :=
    if lt (lit 0.5) (duration analysis) && lt (duration analysis) (lit 2.0)
    then covidScore + lit 0.3 else covidScore in
  let covidScore :=
    if lt (rms analysis) (lit 0.1) then covidScore + lit 0.2 else covidScore in
  let covidScore :=
    if lt (lit 0.1) (zeroCrossingRate analysis)
    then covidScore + lit 0.2 else covidScore in
  if lt (lit 2000) (spectralCentroid analysis)
  then covidScore + lit 0.3 else covidScore.

Definition asthmaScore (analysis : CoughAnalysis num) : num :=
  let asthmaScore := zero in
  let asthmaScore :=
    if lt (lit 1.0) (duration analysis)
    then asthmaScore + lit 0.3 else asthmaScore in
  let asthmaScore :=
    if lt (spectralCentroid analysis) (lit 1500)
    then asthmaScore + lit 0.3 else asthmaScore in
  if detectWheezing (mfccFeatures analysis)
  then asthmaScore + lit 0.4 else asthmaScore.

Definition bronchitisScore (analysis : CoughAnalysis num) : num :=
  let bronchitisScore := zero in
  let bronchitisScore :=
    if lt (lit 0.15) (rms analysis)
    then bronchitisScore + lit 0.3 else bronchitisScore in
  let bronchitisScore :=
    if lt (lit 0.8) (duration analysis)
    then bronchitisScore + lit 0.2 else bronchitisScore in
  if lt (spectralCentroid analysis) (lit 2000)
  then bronchitisScore + lit 0.3 else bronchitisScore.

Definition pneumoniaScore (analysis : CoughAnalysis num) : num :=
  let pneumoniaScore := zero in
  let pneumoniaScore :=
    if lt (lit 0.12) (rms analysis)
    then pneumoniaScore + lit 0.2 else pneumoniaScore in
  let pneumoniaScore :=
    if lt (duration analysis) (lit 1.5)
    then pneumoniaScore + lit 0.2 else pneumoniaScore in
  if lt (zeroCrossingRate analysis) (lit 0.08)
  then pneumoniaScore + lit 0.3 else pneumoniaScore.

(** The entry that [predict] pushes for a condition: the score capped at
    0.95, and the confidence band of the score. *)
Definition condition (name : string) (score : num) : ConditionProbability num :=
  {| name := name;
     probability := Math_min score (lit 0.95);
     confidence := confidenceOf score |}.

(** [conditions] after the four pushes, before the sort: the raw scores. *)
Definition scoredConditions (analysis : CoughAnalysis num)
    : list (ConditionProbability num) :=
  [ condition "COVID-19" (covidScore analysis);
    condition "Asthma" (asthmaScore analysis);
    condition "Bronchitis" (bronchitisScore analysis);
    condition "Pneumonia" (pneumoniaScore analysis) ].

(** [(a, b) => b.probability - a.probability] *)
Definition byProbability (a b : ConditionProbability num) : num :=
  probability b - probability a.

(** [conditions[0]?.name || "Unknown"]: the empty string is falsy. *)
Definition nameOr (c : option (ConditionProbability num)) (default : string)
    : string :=
  match c with
  | Some c => if String.eqb (name c) "" then default else name c
  | None => default
  end.

(** [conditions[0]?.confidence || "low"]: the three bands are truthy. *)
Definition confidenceOr (c : option (ConditionProbability num))
    (default : Confidence) : Confidence :=
  match c with
  | Some c => confidence c
  | None => default
  end.

(** The second half of [predict]: sort by probability, normalize, and
    build the result. *)
Definition rankConditions (now : Z)
    (conditions : list (ConditionProbability num)) : CoughClassification num :=
  let conditions := Array_sort byProbability conditions in
  let total :=
    fold_left (fun sum c => sum + probability c) conditions zero in
  let conditions :=
    if lt zero total
    then map (fun c =>
                {| name := name c;
                   probability := (probability c / total) * lit 100;
                   confidence := confidence c |})
             conditions
    else conditions in
  {| conditions := conditions;
     dominantCondition := nameOr (hd_error conditions) "Unknown";
     overallConfidence := confidenceOr (hd_error conditions) low;
     analysisTimestamp := now |}.

(** [now] is the value of [Date.now()] at the call. *)
Definition predict (now : Z) (analysis : CoughAnalysis num)
    : CoughClassification num :=
  rankConditions now (scoredConditions analysis).

(** The four rule sums of [predict], by condition name. *)
Definition rawScores (analysis : CoughAnalysis num) : list (string * num) :=
  [ ("COVID-19", covidScore analysis);
    ("Asthma", asthmaScore analysis);
    ("Bronchitis", bronchitisScore analysis);
    ("Pneumonia", pneumoniaScore analysis) ].

(** The outcomes of the thirteen tests of the rules, in source order, and
    the entries they lead to: [scoredConditions] as a function of the
    tests alone. *)
Definition ruleTests (analysis : CoughAnalysis num) : list bool :=
  [ lt (lit 0.5) (duration analysis) && lt (duration analysis) (lit 2.0);
    lt (rms analysis) (lit 0.1);
    lt (lit 0.1) (zeroCrossingRate analysis);
    lt (lit 2000) (spectralCentroid analysis);
    lt (lit 1.0) (duration analysis);
    lt (spectralCentroid analysis) (lit 1500);
    detectWheezing (mfccFeatures analysis);
    lt (lit 0.15) (rms analysis);
    lt (lit 0.8) (duration analysis);
    lt (spectralCentroid analysis) (lit 2000);
    lt (lit 0.12) (rms analysis);
    lt (duration analysis) (lit 1.5);
    lt (zeroCrossingRate analysis) (lit 0.08) ].

Definition rule (test : bool) (weight : Q) (score : num) : num :=
  if test then score + lit weight else score.

Definition conditionsOfTests (tests : list bool)
    : list (ConditionProbability num) :=
  match tests with
  | [c1; c2; c3; c4; a1; a2; a3; b1; b2; b3; p1; p2; p3] =>
      [ condition "COVID-19"
          (rule c4 0.3 (rule c3 0.2 (rule c2 0.2 (rule c1 0.3 zero))));
        condition "Asthma" (rule a3 0.4 (rule a2 0.3 (rule a1 0.3 zero)));
        condition "Bronchitis" (rule b3 0.3 (rule b2 0.2 (rule b1 0.3 zero)));
        condition "Pneumonia" (rule p3 0.3 (rule p2 0.2 (rule p1 0.2 zero))) ]
  | _ => []
  end.

End RuleBasedCoughModel.

(** ** Auxiliary definitions of the statements *)

(** All lists of [n] booleans. *)
Fixpoint bool_lists (n : nat) : list (list bool) :=
  match n with
  | O => [[]]
  | S n => map (cons true) (bool_lists n) ++ map (cons false) (bool_lists n)
  end.

Section Frames.
Context {num : Type} {JN : JsNumber num}.

(** Frame [k] of a feature set is its coefficients [13 k .. 13 k + 12];
    the frame matches the wheeze pattern when coefficient 2 exceeds 0.5
    and coefficient 3 is below -0.3. *)
Definition frameMatches (features : list num) (k : nat) : bool :=
  lt (lit 0.5) (get features (13 * k + 2)) &&
  lt (get features (13 * k + 3)) (lit (-0.3)).

Definition matchingFrames (features : list num) (numFrames : nat) : nat :=
  length (filter (frameMatches features) (seq 0 numFrames)).

(** What the raw scores would be if only the rules on the duration
    contributed: of the thirteen rules, one of each condition tests the
    duration alone. *)
Definition durationOnlyScores (analysis : CoughAnalysis num)
    : list (string * num) :=
  let d := duration analysis in
  [ ("COVID-19"%string, rule (lt (lit 0.5) d && lt d (lit 2.0)) 0.3 zero);
    ("Asthma"%string, rule (lt (lit 1.0) d) 0.3 zero);
    ("Bronchitis"%string, rule (lt (lit 0.8) d) 0.2 zero);
    ("Pneumonia"%string, rule (lt d (lit 1.5)) 0.2 zero) ].

End Frames.

(** Analysis Records in binary64 at which the classifier is evaluated. *)
Module Records.

(** The duration is NaN and the other statistics sit on the thresholds:
    no rule of any condition fires. *)
Definition onThresholds : CoughAnalysis float :=
  {| duration := PrimFloat.nan; rms := lit 0.1;
     zeroCrossingRate := lit 0.1; spectralCentroid := lit 2000;
     mfccFeatures := []; timestamp := 0 |}.

(** A cough of 1.2 s with centroid 1800 Hz: the only rule of the asthma
    score that fires is the one on the duration. *)
Definition longCough : CoughAnalysis float :=
  {| duration := lit 1.2; rms := lit 0.11;
     zeroCrossingRate := lit 0.09; spectralCentroid := lit 1800;
     mfccFeatures := []; timestamp := 0 |}.

(** The same cough with centroid 1200 Hz: the rules of the asthma score on
    the duration and on the centroid fire, 0.3 each. *)
Definition lowCough : CoughAnalysis float :=
  {| duration := lit 1.2; rms := lit 0.11;
     zeroCrossingRate := lit 0.09; spectralCentroid := lit 1200;
     mfccFeatures := []; timestamp := 0 |}.

(** A feature set of two frames, of which the first matches the wheeze
    pattern. *)
Definition twoFrames : list float :=
  ([0; 0; 1; -1] ++ repeat 0 9 ++ repeat 0 13)%float.

(** A feature set of one frame, which matches the wheeze pattern. *)
Definition oneFrame : list float :=
  ([0; 0; 1; -1] ++ repeat 0 9)%float.

End Records.

Module Exact.

(** The exact sum of a list of finite doubles. *)
Fixpoint sum (l : list float) : option Q :=
  match l with
  | [] => Some 0%Q
  | x :: r =>
      match Binary64.to_Q x, sum r with
      | Some q, Some s => Some (q + s)%Q
      | _, _ => None
      end
  end.

(** [within s target tol]: [s] lies within relative tolerance [tol] of
    [target]. *)
Definition within (s target tol : Q) : Prop :=
  (Qabs (s - target) <= tol * Qabs target)%Q.

Definition within_bool (s target tol : Q) : bool :=
  Qle_bool (Qabs (s - target)) (tol * Qabs target).

End Exact.

Module Ideal.

(** The real and imaginary parts of the discrete Fourier sum
    [sum_{n=0}^{N-1} x[n] e^{-i 2 pi k n / N}] of a frame [x] of [N >= 1]
    samples. *)
Definition dft_re (x : list R) (k : nat) : R :=
  let N := length x in
  sum_f_R0 (fun n => nth n x 0 * cos (- 2 * PI * INR k * INR n / INR N))%R
           (N - 1).

Definition dft_im (x : list R) (k : nat) : R :=
  let N := length x in
  sum_f_R0 (fun n => nth n x 0 * sin (- 2 * PI * INR k * INR n / INR N))%R
           (N - 1).

(** One second of silence sampled at 44100 Hz. *)
Definition silence : AudioBuffer R :=
  {| channelData := repeat 0%R (Z.to_nat 44100); sampleRate := 44100%R |}.

(** The Analysis Record of a second of silence, up to its feature set. *)
Definition silentRecord (now : Z) (features : list R) : CoughAnalysis R :=
  {| duration := 1%R; rms := 0%R; zeroCrossingRate := 0%R;
     spectralCentroid := 0%R; mfccFeatures := features; timestamp := now |}.

End Ideal.

(** ** Further definitions of the statements *)

Section Crossings.
Context {num : Type} {JN : JsNumber num}.

(** The counter [crossings] of [calculateZeroCrossingRate] after its loop. *)
Definition crossingCount (signal : list num) : nat :=
  for_loop 1 (length signal)
    (fun i crossings =>
       if negb (Bool.eqb (ge (get signal i) zero) (ge (get signal (i - 1)) zero))
       then S crossings else crossings)
    O.

(** Frame [f] of [extractMFCCFeatures]: the window of 2048 pre-emphasized
    samples that starts at sample [512 f], and its 13 coefficients. *)
Definition frameData (audioBuffer : AudioBuffer num) (f : nat) : list num :=
  slice (preEmphasis (channelData audioBuffer) (lit 0.97))
        (f * Z.to_nat hopSize) (f * Z.to_nat hopSize + Z.to_nat windowSize).

End Crossings.

Section FrameCoefficients.
Context {num : Type} {JN : JsNumber num} {JM : JsMath num}.

Definition frameMFCC (audioBuffer : AudioBuffer num) (f : nat) : list num :=
  computeMFCC (applyHammingWindow (frameData audioBuffer f))
              (sampleRate audioBuffer).

End FrameCoefficients.

Module Buffers.

(** One window of silence: 2048 zero samples at 44100 Hz. *)
Definition oneWindow : AudioBuffer R :=
  {| channelData := repeat 0%R 2048; sampleRate := 44100%R |}.

(** A short ramp of three samples. *)
Definition ramp : list R := [1; 2; 4]%R.

End Buffers.

(** ** lib/cough-classifier.ts: the classifier object *)

(** The implementations of the interface [CoughModel]. *)
Inductive CoughModel : Type := RuleBasedCoughModel.

Record CoughClassifier : Type := {
  model : option CoughModel;
  isLoaded : bool
}.

Section CoughClassifierMethods.
Context {num : Type} {JN : JsNumber num}.

Definition CoughModel_predict (m : CoughModel) (now : Z)
    (analysis : CoughAnalysis num) : CoughClassification num :=
  match m with
  | RuleBasedCoughModel => predict now analysis
  end.

Definition loadModel (this : CoughClassifier) : CoughClassifier :=
  {| model := Some RuleBasedCoughModel; isLoaded := true |}.

(** [new CoughClassifier()]: the fields are initialized and the constructor
    calls [loadModel], whose body has no [await] and so has run when the
    constructor returns. *)
Definition new_CoughClassifier : CoughClassifier :=
  loadModel {| model := None; isLoaded := false |}.

(** [throw new Error("Model not loaded")] is the exception named "Error". *)
Definition classifyCough (this : CoughClassifier) (now : Z)
    (analysis : CoughAnalysis num) : outcome (CoughClassification num) :=
  match isLoaded this, model this with
  | true, Some m => Return (CoughModel_predict m now analysis)
  | _, _ => Throw "Error"
  end.

(** [clock i] is the value of [Date.now()] while item [i] is classified. *)
Definition batchClassify (this : CoughClassifier) (clock : nat -> Z)
    (analyses : list (CoughAnalysis num))
    : outcome (list (CoughClassification num)) :=
  fold_left
    (fun acc analysis =>
       results <- acc ;;
       classification <- classifyCough this (clock (length results)) analysis ;;
       Return (results ++ [classification]))
    analyses (Return []).

End CoughClassifierMethods.

(** ** Strings, arrays and blobs of the callers *)

(** Strings are taken as sequences of ASCII characters. *)
Module JsString.

Definition lower (c : Ascii.ascii) : Ascii.ascii :=
  let n := Ascii.nat_of_ascii c in
  if ((65 <=? n) && (n <=? 90))%nat then Ascii.ascii_of_nat (n + 32) else c.

Fixpoint toLowerCase (s : string) : string :=
  match s with
  | EmptyString => EmptyString
  | String c r => String (lower c) (toLowerCase r)
  end.

Definition startsWith (s searchString : string) : bool :=
  String.prefix searchString s.

Fixpoint includes (s searchString : string) : bool :=
  String.prefix searchString s ||
  match s with
  | EmptyString => false
  | String _ r => includes r searchString
  end.

(** [s.substr(start, length)] for [start, length >= 0]. *)
Definition substr (s : string) (start length : nat) : string :=
  String.substring start length s.

(** The decimal digits of an integer, as a template literal prints it. *)
Definition of_integer (z : Z) : string :=
  DecimalString.NilZero.string_of_int (Z.to_int z).

End JsString.

(** The result of [ToIntegerOrInfinity]. *)
Inductive IntegerOrInfinity : Type :=
| Integer (z : Z)
| PlusInfinity
| MinusInfinity.

Module JsArray.

(** The index that [slice] makes of a relative position in an array of
    [len] elements: a negative position counts from the end, and the result
    is clamped to [0 .. len]. *)
Definition relativeIndex (len : nat) (i : IntegerOrInfinity) : nat :=
  match i with
  | MinusInfinity => O
  | Integer z =>
      if (z <? 0)%Z then Z.to_nat (Z.max (Z.of_nat len + z) 0)
      else Z.to_nat (Z.min z (Z.of_nat len))
  | PlusInfinity => len
  end.

(** [a.slice(start, end)]; [end] may be left out. *)
Definition slice {A : Type} (a : list A) (start : IntegerOrInfinity)
    (stop : option IntegerOrInfinity) : list A :=
  let len := length a in
  let k := relativeIndex len start in
  let final :=
    match stop with
    | None => len
    | Some e => relativeIndex len e
    end in
  firstn (final - k) (skipn k a).

(** [[...new Set(a)]]: the distinct elements in the order of their first
    occurrence. *)
Fixpoint distinct (a : list string) : list string :=
  match a with
  | [] => []
  | x :: r => x :: filter (fun y => negb (String.eqb x y)) (distinct r)
  end.

End JsArray.

(** [ToIntegerOrInfinity(Math.floor(x))] of a double [x]. *)
Definition Binary64_floor (x : float) : IntegerOrInfinity :=
  match Prim2SF x with
  | S754_zero _ => Integer 0
  | S754_nan => Integer 0
  | S754_infinity s => if s then MinusInfinity else PlusInfinity
  | S754_finite s m e =>
      let z := if s then Zneg m else Zpos m in
      Integer (if (0 <=? e)%Z then z * 2 ^ e else z / 2 ^ (- e))%Z
  end.

(** A blob is its size, its MIME type and its bytes; a file is a blob with
    a name. *)
Record Blob : Type := {
  blob_size : Z;
  blob_type : string;
  blob_bytes : list Z
}.

Record File : Type := {
  file_blob : Blob;
  file_name : string
}.

(** ** The callers: lib/dataset-manager.ts and the audio capture component *)

Record AudioFeatures (num : Type) : Type := {
  features_mfcc : list num;
  features_rms : num;
  features_zcr : num;
  features_spectralCentroid : num
}.

Record SampleMetadata : Type := {
  fileSize : Z;
  uploadedAt : Z;
  processed : bool
}.

Record CoughSample (num : Type) : Type := {
  sample_id : string;
  filename : string;
  label : string;
  sample_duration : num;
  sample_sampleRate : num;
  features : AudioFeatures num;
  sample_metadata : SampleMetadata
}.

Record DatasetMetadata (num : Type) : Type := {
  totalSamples : nat;
  metadata_conditions : list string;
  metadata_sampleRate : num;
  metadata_duration : string;
  format : string
}.

Record CoughDataset (num : Type) : Type := {
  dataset_id : string;
  dataset_name : string;
  description : string;
  version : string;
  samples : list (CoughSample num);
  metadata : DatasetMetadata num;
  createdAt : Z;
  updatedAt : Z
}.

Record DatasetSplit (num : Type) : Type := {
  train : list (CoughSample num);
  validation : list (CoughSample num)
}.

(** What one call of [processAudioFile] reads from the clock and from
    [Math.random().toString(36)]. *)
Record Reads : Type := {
  analysisNow : Z;
  idNow : Z;
  idRandom : string;
  uploadNow : Z
}.

(** The events of [analyzeRecordedAudio] that the component and its parent
    observe. *)
Inductive CaptureEvent (num : Type) : Type :=
| SetIsAnalyzing (b : bool)
| SetAnalysisProgress (percent : Z)
| OnAnalysisComplete (analysis : CoughAnalysis num)
                     (classification : CoughClassification num)
| ConsoleError (name : string)
| SetTimeout (event : CaptureEvent num) (delay : Z).

Arguments SetIsAnalyzing {num} b.
Arguments SetAnalysisProgress {num} percent.
Arguments OnAnalysisComplete {num} analysis classification.
Arguments ConsoleError {num} name.
Arguments SetTimeout {num} event delay.

Section Callers.
Context {num : Type} {JN : JsNumber num} {JM : JsMath num}.
Local Open Scope string_scope.

(** [AudioContext.decodeAudioData] belongs to the platform: it resolves to
    a buffer or rejects. *)
Record AudioContext : Type := {
  decodeAudioData : list Z -> outcome (AudioBuffer num)
}.

(** The state of an [AudioProcessor]: its context is [null] where there is
    no [window]. *)
Record AudioProcessor : Type := {
  audioContext : option AudioContext
}.

Definition processAudioBlob (this : AudioProcessor) (blob : Blob)
    : outcome (AudioBuffer num) :=
  match audioContext this with
  | None => Throw "Error"
  | Some context => decodeAudioData context (blob_bytes blob)
  end.

Definition extractLabelFromFilename (filename : string) : string :=
  let lower := JsString.toLowerCase filename in
  if JsString.includes lower "covid" || JsString.includes lower "corona"
  then "COVID-19"
  else if JsString.includes lower "asthma" then "Asthma"
  else if JsString.includes lower "bronchitis" then "Bronchitis"
  else if JsString.includes lower "pneumonia" then "Pneumonia"
  else if JsString.includes lower "healthy" || JsString.includes lower "normal"
  then "Healthy"
  else "Unknown".

Definition processAudioFile (audioProcessor : AudioProcessor) (reads : Reads)
    (file : File) : outcome (CoughSample num) :=
  audioBuffer <- processAudioBlob audioProcessor (file_blob file) ;;
  analysis <- analyzeCoughCharacteristics (analysisNow reads) audioBuffer ;;
  let label := extractLabelFromFilename (file_name file) in
  Return
    {| sample_id :=
         String.append "sample-"
           (String.append (JsString.of_integer (idNow reads))
              (String.append "-" (JsString.substr (idRandom reads) 2 9)));
       filename := file_name file;
       label := label;
       sample_duration := buffer_duration audioBuffer;
       sample_sampleRate := sampleRate audioBuffer;
       features :=
         {| features_mfcc := mfccFeatures analysis;
            features_rms := rms analysis;
            features_zcr := zeroCrossingRate analysis;
            features_spectralCentroid := spectralCentroid analysis |};
       sample_metadata :=
         {| fileSize := blob_size (file_blob file);
            uploadedAt := uploadNow reads;
            processed := true |} |}.

(** The loop of [loadLocalDataset] from file [i] on; [reads i] is what the
    processing of file [i] reads. *)
Fixpoint collectSamples (audioProcessor : AudioProcessor)
    (reads : nat -> Reads) (i : nat) (files : list File)
    (samples : list (CoughSample num)) : outcome (list (CoughSample num)) :=
  match files with
  | [] => Return samples
  | file :: rest =>
      if JsString.startsWith (blob_type (file_blob file)) "audio/" then
        sample <- processAudioFile audioProcessor (reads i) file ;;
        collectSamples audioProcessor reads (S i) rest (samples ++ [sample])%list
      else collectSamples audioProcessor reads (S i) rest samples
  end.

(** [idNow], [createdNow] and [updatedNow] are the clock at the dataset id
    and at the two dates of the dataset. *)
Definition loadLocalDataset (audioProcessor : AudioProcessor)
    (idNow : Z) (reads : nat -> Reads) (createdNow updatedNow : Z)
    (files : list File) : outcome (CoughDataset num) :=
  let datasetId := String.append "local-" (JsString.of_integer idNow) in
  samples <- collectSamples audioProcessor reads O files [] ;;
  Return
    {| dataset_id := datasetId;
       dataset_name := "Local Cough Dataset";
       description := "Locally uploaded cough audio files";
       version := "1.0.0";
       samples := samples;
       metadata :=
         {| totalSamples := length samples;
            metadata_conditions := JsArray.distinct (map (@label num) samples);
            metadata_sampleRate := lit 44100;
            metadata_duration := "variable";
            format := "mixed" |};
       createdAt := createdNow;
       updatedAt := updatedNow |}.

(** [Map.prototype.get] on the entries of [datasets], in insertion order. *)
Fixpoint Map_get (datasets : list (string * CoughDataset num)) (id : string)
    : option (CoughDataset num) :=
  match datasets with
  | [] => None
  | (key, dataset) :: rest =>
      if String.eqb key id then Some dataset else Map_get rest id
  end.

(** [condition] is [None] when the argument is left out; the empty string
    is falsy. *)
Definition getSamples (datasets : list (string * CoughDataset num))
    (datasetId : string) (condition : option string)
    : list (CoughSample num) :=
  match Map_get datasets datasetId with
  | None => []
  | Some dataset =>
      match condition with
      | Some condition =>
          if String.eqb condition "" then samples dataset
          else filter (fun sample => String.eqb (label sample) condition)
                      (samples dataset)
      | None => samples dataset
      end
  end.

(** The steps of the [try] block of [analyzeRecordedAudio]: the events so
    far and how the block ends. *)
Definition analyzeRecordedAudio_try (audioProcessor : AudioProcessor)
    (coughClassifier : CoughClassifier)
    (onAnalysisComplete :
       option (CoughAnalysis num -> CoughClassification num -> outcome unit))
    (analysisNow classificationNow : Z) (blob : Blob)
    : list (CaptureEvent num) * outcome unit :=
  let events := [SetAnalysisProgress 20] in
  match processAudioBlob audioProcessor blob with
  | Throw error => (events, Throw error)
  | Return audioBuffer =>
      let events := (events ++ [SetAnalysisProgress 50])%list in
      match analyzeCoughCharacteristics analysisNow audioBuffer with
      | Throw error => (events, Throw error)
      | Return analysis =>
          let events := (events ++ [SetAnalysisProgress 80])%list in
          match classifyCough coughClassifier classificationNow analysis with
          | Throw error => (events, Throw error)
          | Return classification =>
              let events := (events ++ [SetAnalysisProgress 100])%list in
              match onAnalysisComplete with
              | Some callback =>
                  ((events ++ [OnAnalysisComplete analysis classification])%list,
                   callback analysis classification)
              | None => (events, Return tt)
              end
          end
      end
  end.

Definition analyzeRecordedAudio (audioProcessor : AudioProcessor)
    (coughClassifier : CoughClassifier)
    (onAnalysisComplete :
       option (CoughAnalysis num -> CoughClassification num -> outcome unit))
    (analysisNow classificationNow : Z) (blob : Blob)
    : list (CaptureEvent num) :=
  let '(events, result) :=
    analyzeRecordedAudio_try audioProcessor coughClassifier onAnalysisComplete
      analysisNow classificationNow blob in
  ([SetIsAnalyzing true; SetAnalysisProgress 0]
   ++ events
   ++ match result with
      | Throw error => [ConsoleError error]
      | Return _ => []
      end
   ++ [SetIsAnalyzing false; SetTimeout (SetAnalysisProgress 0) 1000])%list.

End Callers.

(** [splitDataset] runs on doubles: [shuffle] is the order that
    [sort(() => Math.random() - 0.5)] leaves, [trainRatio] is [None] when
    the argument is left out. *)
Definition splitDataset
    (shuffle : list (CoughSample float) -> list (CoughSample float))
    (datasets : list (string * CoughDataset float)) (datasetId : string)
    (trainRatio : option float) : DatasetSplit float :=
  let trainRatio :=
    match trainRatio with
    | Some r => r
    | None => lit 0.8
    end in
  let samples := getSamples datasets datasetId None in
  let shuffled := shuffle samples in
  let splitIndex := Binary64_floor (mul (of_nat (length samples)) trainRatio) in
  {| train := JsArray.slice shuffled (Integer 0) (Some splitIndex);
     validation := JsArray.slice shuffled splitIndex None |}.

Section AudioLevel.
Context {num : Type} {JN : JsNumber num}.
Local Open Scope js_scope.

(** The level that [updateAudioLevel] sets from the bytes of
    [getByteFrequencyData]. *)
Definition audioLevel (dataArray : list Z) : num :=
  let average :=
    fold_left (fun sum value => sum + of_int value) dataArray zero
    / of_nat (length dataArray) in
  Math_min (lit 100) ((average / lit 255) * lit 100 * lit 3).

End AudioLevel.

Module Files.

(** The labels that [extractLabelFromFilename] can return. *)
Definition labels : list string :=
  ["COVID-19"; "Asthma"; "Bronchitis"; "Pneumonia"; "Healthy"; "Unknown"]%string.

Definition isAudio (file : File) : bool :=
  JsString.startsWith (blob_type (file_blob file)) "audio/".

(** A processor whose context decodes every blob to one window of silence,
    and one that decodes every blob to three samples. *)
Definition decodesToWindow : AudioProcessor (num := R) :=
  {| audioContext :=
       Some {| decodeAudioData := fun _ => Return Buffers.oneWindow |} |}.

Definition decodesToRamp : AudioProcessor (num := R) :=
  {| audioContext :=
       Some {| decodeAudioData :=
                 fun _ => Return {| channelData := Buffers.ramp;
                                    sampleRate := 44100%R |} |} |}.

Definition noReads : Reads :=
  {| analysisNow := 0; idNow := 0; idRandom := "0.5"; uploadNow := 0 |}.

Definition asthmaClip : File :=
  {| file_blob := {| blob_size := 3; blob_type := "audio/wav";
                     blob_bytes := [82; 73; 70]%Z |};
     file_name := "Asthma_01.WAV" |}.

Definition notes : File :=
  {| file_blob := {| blob_size := 2; blob_type := "text/plain";
                     blob_bytes := [104; 105]%Z |};
     file_name := "covid notes.txt" |}.

End Files.

Module Clips.

Definition shortClip : File :=
  {| file_blob := {| blob_size := 3; blob_type := "audio/webm";
                     blob_bytes := [26; 69; 223]%Z |};
     file_name := "cough.webm" |}.

(** A callback that returns. *)
Definition report (_ : CoughAnalysis R) (_ : CoughClassification R)
    : outcome unit := Return tt.

Definition abnormalClip : string := "Abnormal_breathing_03.wav".

(** Three bytes of 85. *)
Definition levels : list Z := [85; 85; 85]%Z.

End Clips.

(** ** The contract of [Array.prototype.sort] *)

Section SortContract.
Context {num : Type} {JN : JsNumber num} {A : Type}.
Variable compareFn : A -> A -> num.

(** [SortCompare(x, y)] is the number that [compareFn(x, y)] returns, with
    NaN taken as +0: [x] sorts before [y] when it is negative, after [y]
    when it is positive, and the two are tied otherwise. *)
Definition sortsBefore (x y : A) : bool := lt (compareFn x y) zero.

Definition sortsAfter (x y : A) : bool := lt zero (compareFn x y).

Definition tied (x y : A) : bool :=
  negb (sortsBefore x y) && negb (sortsAfter x y).

(** [compareFn] is a consistent comparator for the elements of [S]: every
    element is tied with itself, ties are symmetric and transitive, and
    sorting before and sorting after are transitive. *)
Definition consistentComparator (S : list A) : bool :=
  forallb
    (fun a =>
       tied a a &&
       forallb
         (fun b =>
            implb (tied a b) (tied b a) &&
            forallb
              (fun c =>
                 implb (tied a b && tied b c) (tied a c) &&
                 implb (sortsBefore a b && sortsBefore b c) (sortsBefore a c) &&
                 implb (sortsAfter a b && sortsAfter b c) (sortsAfter a c))
              S)
         S)
    S.

(** The elements of an array with their indices. *)
Definition indexed (l : list A) : list (nat * A) :=
  combine (seq 0 (length l)) l.

(** Two entries of the sorted array, each with the index it had before the
    sort, stand in sort order when the second does not sort before the
    first and, if they are tied, the first came first (the sort is
    stable). *)
Definition inSortOrder (p q : nat * A) : Prop :=
  sortsBefore (snd q) (snd p) = false /\
  (tied (snd p) (snd q) = true -> (fst p < fst q)%nat).

Definition inSortOrder_bool (p q : nat * A) : bool :=
  negb (sortsBefore (snd q) (snd p)) &&
  implb (tied (snd p) (snd q)) (fst p <? fst q)%nat.

Fixpoint allInSortOrder (entries : list (nat * A)) : bool :=
  match entries with
  | [] => true
  | p :: rest => forallb (inSortOrder_bool p) rest && allInSortOrder rest
  end.

(** [sortResult l sorted]: [l.sort(compareFn)] may leave the array as
    [sorted].  The result is a rearrangement of [l]; when [compareFn] is a
    consistent comparator for the elements of [l] it is in sort order, and
    otherwise the order is left to the implementation. *)
Definition sortResult (l sorted : list A) : Prop :=
  exists entries : list (nat * A),
    Permutation entries (indexed l) /\
    sorted = map snd entries /\
    (consistentComparator l = true -> StronglySorted inSortOrder entries).

(** [compareFn] on entries that carry their index. *)
Definition compareEntries (p q : nat * A) : num := compareFn (snd p) (snd q).

End SortContract.

Section PredictOutcomes.
Context {num : Type} {JN : JsNumber num}.
Local Open Scope js_scope.

(** What [predict] returns once [conditions] has been sorted into
    [sorted]: the normalization and the result object. *)
Definition resultOfSorted (now : Z) (sorted : list (ConditionProbability num))
    : CoughClassification num :=
  let total :=
    fold_left (fun sum c => sum + probability c) sorted zero in
  let conditions :=
    if lt zero total
    then map (fun c =>
                {| name := name c;
                   probability := (probability c / total) * lit 100;
                   confidence := confidence c |})
             sorted
    else sorted in
  {| conditions := conditions;
     dominantCondition := nameOr (hd_error conditions) "Unknown";
     overallConfidence := confidenceOr (hd_error conditions) low;
     analysisTimestamp := now |}.

(** [predicts now analysis result]: a call of [predict] on [analysis] that
    reads [now] from the clock may return [result], whatever order the
    engine's sort is allowed to leave. *)
Definition predicts (now : Z) (analysis : CoughAnalysis num)
    (result : CoughClassification num) : Prop :=
  exists sorted : list (ConditionProbability num),
    sortResult byProbability (scoredConditions analysis) sorted /\
    result = resultOfSorted now sorted.

End PredictOutcomes.

(** ** The sums of the transform and of the cepstrum in the program's arithmetic *)

Module Direct.
Section Sums.
Context {num : Type} {JN : JsNumber num} {JM : JsMath num}.
Local Open Scope js_scope.

(** [t 0 + t 1 + ... + t (m - 1)], each term added to the sum so far,
    which starts at 0. *)
Fixpoint accumulate (t : nat -> num) (m : nat) : num :=
  match m with
  | O => zero
  | S m' => accumulate t m' + t m'
  end.

(** The angle [-2 pi k n / N]. *)
Definition angle (N k n : nat) : num :=
  (lit (-2) * Math_PI * of_nat k * of_nat n) / of_nat N.

(** The sums [sum_{n < N} x[n] cos(-2 pi k n / N)] and
    [sum_{n < N} x[n] sin(-2 pi k n / N)] of a frame [x] of [N] samples. *)
Definition re (x : list num) (k : nat) : num :=
  accumulate (fun n => get x n * Math_cos (angle (length x) k n)) (length x).

Definition im (x : list num) (k : nat) : num :=
  accumulate (fun n => get x n * Math_sin (angle (length x) k n)) (length x).

(** The power of bin [j]: the squares of the two stored sums, added and
    stored. *)
Definition power (x : list num) (j : nat) : num :=
  let real := fround (re x j) in
  let imag := fround (im x j) in
  fround (real * real + imag * imag).

(** The sum [sum_{j < N} log(power j + 1e-10) cos(pi i (j + 0.5) / N)]. *)
Definition cepstrum (x : list num) (i : nat) : num :=
  accumulate
    (fun j =>
       Math_log (power x j + lit 1e-10) *
       Math_cos ((Math_PI * of_nat i * (of_nat j + lit 0.5))
                 / of_nat (length x)))
    (length x).

(** The Hamming weight [0.54 - 0.46 cos(2 pi n / (N - 1))]. *)
Definition hamming (N n : nat) : num :=
  lit 0.54 - lit 0.46 *
    Math_cos ((lit 2 * Math_PI * of_nat n) / of_int (Z.of_nat N - 1)).

End Sums.
End Direct.

(** ** Values of the host's [Math.cos], [Math.sin] and [Math.log] *)

Module Host.

(** The double nearest to [-pi]. *)
Definition minusPi : float := (- Binary64.PI)%float.


(** Tables of these values and of [Math.log(1) = 0]; an argument that is
    not in the table, as is NaN, gives NaN. *)
Definition cos (x : float) : float :=
  if (x =? 0)%float then 1%float
  else if (x =? minusPi)%float then (-1)%float
  else PrimFloat.nan.

Definition sin (x : float) : float :=
  if (x =? 0)%float then x
  else if (x =? minusPi)%float then (-0x1.1a62633145c07p-53)%float
  else PrimFloat.nan.

Definition log (x : float) : float :=
  if (x =? 1)%float then 0%float else PrimFloat.nan.

Definition math : JsMath float := float_math cos sin log.

End Host.

Module Doubles.

(** The real number that a finite double holds. *)
Definition value (x : float) : R :=
  match Binary64.to_Q x with
  | Some q => Q2R q
  | None => 0%R
  end.

End Doubles.

(** Waveforms in binary64 at which the code is evaluated. *)
Module Waves.



(** The samples 1 and [2^-24], both single-precision numbers. *)
Definition faint : list float := [1; 0x1p-24]%float.

End Waves.

Module Datasets.

Definition sample (name : string) : CoughSample float :=
  {| sample_id := name;
     filename := name;
     label := "Unknown";
     sample_duration := 1%float;
     sample_sampleRate := 44100%float;
     features :=
       {| features_mfcc := []; features_rms := 0%float;
          features_zcr := 0%float; features_spectralCentroid := 0%float |};
     sample_metadata := {| fileSize := 0; uploadedAt := 0; processed := true |} |}.

(** A dataset of five samples under the id "coughs". *)
Definition library : list (string * CoughDataset float) :=
  [ ("coughs"%string,
     {| dataset_id := "coughs";
        dataset_name := "Coughs";
        description := "";
        version := "1.0.0";
        samples := map sample ["a"; "b"; "c"; "d"; "e"]%string;
        metadata :=
          {| totalSamples := 5;
             metadata_conditions := ["Unknown"%string];
             metadata_sampleRate := 44100%float;
             metadata_duration := "variable";
             format := "wav" |};
        createdAt := 0;
        updatedAt := 0 |}) ].

End Datasets.

(** ** Checks over a range of integers *)

(** [allFrom f n z]: the [n] integers from [z] on all pass [f]. *)
Fixpoint allFrom (f : Z -> bool) (n : nat) (z : Z) : bool :=
  match n with
  | O => true
  | S m => f z && allFrom f m (z + 1)
  end.

(** The level of [audioLevel] in binary64 as a function of the sum and of
    the number of the bytes. *)
Definition levelOfSum (sum n : Z) : float :=
  Math_min (lit 100)
    (mul (mul (div (div (of_int sum) (of_int n)) (lit 255)) (lit 100)) (lit 3)).

(** * Properties *)

Unset Implicit Arguments.

(** ** Literals *)

(** The literals of the two source files denote the doubles nearest to
    them. *)
Lemma literals_nearest_double :
  map Binary64.of_Q
    [0.97; 0.54; 0.46; 1e-10; 0.5; -0.3; 0.6; 0.3; 0.2; 0.1; 0.4; 0.95;
     0.15; 0.8; 0.12; 1.5; 0.08; 1.0; 2.0; 2; -2; 2000; 1500; 100; 0]%Q
  = [0.97; 0.54; 0.46; 1e-10; 0.5; -0.3; 0.6; 0.3; 0.2; 0.1; 0.4; 0.95;
     0.15; 0.8; 0.12; 1.5; 0.08; 1.0; 2.0; 2; -2; 2000; 1500; 100; 0]%float.
Proof. reflexivity. Qed.

(** ** Loops and typed arrays *)

Section ArrayFacts.
Context {num : Type} {JN : JsNumber num}.

Lemma update_length (a : list num) i v : length (update a i v) = length a.
Proof.
  revert i; induction a as [|x a IH]; intros [|i]; simpl; auto.
Qed.

Lemma set_length (a : list num) i v : length (set a i v) = length a.
Proof. apply update_length. Qed.

Lemma nth_update_eq (a : list num) i v d :
  (i < length a)%nat -> nth i (update a i v) d = v.
Proof.
  revert i; induction a as [|x a IH]; intros [|i] Hi; simpl in *;
    try lia; auto.
  apply IH; lia.
Qed.

Lemma nth_update_neq (a : list num) i j v d :
  i <> j -> nth j (update a i v) d = nth j a d.
Proof.
  revert i j; induction a as [|x a IH]; intros [|i] [|j] Hij; simpl;
    try reflexivity; try contradiction.
  apply IH; congruence.
Qed.

Lemma get_set_eq (a : list num) i v :
  (i < length a)%nat -> get (set a i v) i = fround v.
Proof. intros; unfold get, set; now apply nth_update_eq. Qed.

Lemma get_set_neq (a : list num) i j v :
  i <> j -> get (set a i v) j = get a j.
Proof. intros; unfold get, set; now apply nth_update_neq. Qed.

Lemma for_loop_empty {S : Type} from to (body : nat -> S -> S) init :
  (to <= from)%nat -> for_loop from to body init = init.
Proof.
  intros H; unfold for_loop.
  replace (to - from)%nat with O by lia; reflexivity.
Qed.

Lemma for_loop_last {S : Type} from to (body : nat -> S -> S) init :
  (from <= to)%nat ->
  for_loop from (Datatypes.S to) body init =
  body to (for_loop from to body init).
Proof.
  intros H; unfold for_loop.
  replace (Datatypes.S to - from)%nat with (Datatypes.S (to - from)) by lia.
  rewrite seq_S, fold_left_app; simpl.
  replace (from + (to - from))%nat with to by lia; reflexivity.
Qed.

(** The invariant rule of the counting loop. *)
Lemma for_loop_invariant {S : Type} (P : nat -> S -> Prop) from to
    (body : nat -> S -> S) init :
  (from <= to)%nat ->
  P from init ->
  (forall i s, (from <= i < to)%nat -> P i s -> P (Datatypes.S i) (body i s)) ->
  P to (for_loop from to body init).
Proof.
  intros Hle H0 Hstep.
  induction to as [|to IH].
  - assert (from = O) by lia; subst; now rewrite for_loop_empty.
  - destruct (Nat.eq_dec from (Datatypes.S to)) as [->|Hne].
    + now rewrite for_loop_empty.
    + rewrite for_loop_last by lia.
      apply Hstep; [lia|].
      apply IH; [lia|].
      intros i s Hi; apply Hstep; lia.
Qed.

Lemma for_loop_set_length from to (f : nat -> list num -> nat)
    (g : nat -> list num -> num) (a : list num) :
  length (for_loop from to (fun i r => set r (f i r) (g i r)) a) = length a.
Proof.
  unfold for_loop.
  generalize (seq from (to - from)); intros l; revert a.
  induction l as [|i l IH]; intros a; simpl; auto.
  now rewrite IH, set_length.
Qed.

Lemma preEmphasis_length (signal : list num) alpha :
  length (preEmphasis signal alpha) = length signal.
Proof.
  unfold preEmphasis.
  rewrite (for_loop_set_length 1 (length signal) (fun i _ => i)
             (fun i _ => sub (get signal i) (mul alpha (get signal (i - 1))))).
  now rewrite set_length, repeat_length.
Qed.

End ArrayFacts.

(** ** Frame count *)

Lemma numFrames_long (N : Z) :
  (2048 <= N -> numFrames N = (N - 2048) / 512 + 1 /\ 1 <= numFrames N)%Z.
Proof.
  intros H; unfold numFrames, windowSize, hopSize; split; [reflexivity|].
  assert (0 <= (N - 2048) / 512)%Z by (apply Z.div_pos; lia); lia.
Qed.

Lemma numFrames_zero (N : Z) :
  (1536 <= N < 2048 -> numFrames N = 0)%Z.
Proof.
  intros H; unfold numFrames, windowSize, hopSize.
  assert ((N - 2048) / 512 = -1)%Z; [|lia].
  symmetry; apply (Z.div_unique (N - 2048) 512 (-1) (N - 1536))%Z; lia.
Qed.

Lemma numFrames_negative (N : Z) :
  (N < 1536 -> numFrames N < 0)%Z.
Proof.
  intros H; unfold numFrames, windowSize, hopSize.
  assert ((N - 2048) / 512 < -1)%Z; [|lia].
  apply Z.div_lt_upper_bound; lia.
Qed.

Section ExtractFacts.
Context {num : Type} {JN : JsNumber num} {JM : JsMath num}.

Lemma extractMFCCFeatures_throws (b : AudioBuffer num) :
  (Z.of_nat (length (channelData b)) < 1536)%Z ->
  extractMFCCFeatures b = Throw "RangeError"%string.
Proof.
  intros H; unfold extractMFCCFeatures.
  rewrite preEmphasis_length.
  apply numFrames_negative in H.
  unfold new_Float32Array.
  destruct (Z.ltb_spec (numFrames (Z.of_nat (length (channelData b))) * 13) 0);
    [reflexivity | lia].
Qed.

Lemma extractMFCCFeatures_no_frames (b : AudioBuffer num) :
  (1536 <= Z.of_nat (length (channelData b)) < 2048)%Z ->
  extractMFCCFeatures b = Return [].
Proof.
  intros H; unfold extractMFCCFeatures.
  rewrite preEmphasis_length, (numFrames_zero _ H); reflexivity.
Qed.

End ExtractFacts.

(** C2: the frame count of a waveform of 1000 samples is -2, not 0, and the
    feature extractor does not succeed on it: allocating the feature array
    of length -26 throws a RangeError. *)
Theorem extractMFCCFeatures_short_waveform :
  forall (num : Type) (JN : JsNumber num) (JM : JsMath num) (x sr : num),
    numFrames 1000 = (-2)%Z /\
    extractMFCCFeatures {| channelData := repeat x 1000; sampleRate := sr |}
    = Throw "RangeError"%string.
Proof.
  intros; split; [reflexivity|].
  apply extractMFCCFeatures_throws; cbn [channelData].
  rewrite repeat_length; lia.
Qed.

(** ** The empty waveform *)




(** ** The classifier *)

Section SortFacts.
Context {num : Type} {JN : JsNumber num} {A : Type}.
Variable compareFn : A -> A -> num.

Lemma sort_insert_perm (x : A) (l : list A) :
  Permutation (sort_insert compareFn x l) (x :: l).
Proof.
  induction l as [|y r IH]; simpl; [reflexivity|].
  destruct (lt zero (compareFn x y)); [|reflexivity].
  rewrite IH; apply perm_swap.
Qed.

Lemma Array_sort_perm (l : list A) : Permutation (Array_sort compareFn l) l.
Proof.
  induction l as [|x l IH]; simpl; [reflexivity|].
  rewrite sort_insert_perm; now constructor.
Qed.

End SortFacts.

Section ClassifierFacts.
Context {num : Type} {JN : JsNumber num}.

Lemma scoredConditions_tests (a : CoughAnalysis num) :
  scoredConditions a = conditionsOfTests (ruleTests a).
Proof. reflexivity. Qed.

Lemma ruleTests_length (a : CoughAnalysis num) : length (ruleTests a) = 13%nat.
Proof. reflexivity. Qed.

(** Sorting and normalizing keep the name and the band of every entry. *)
Lemma rankConditions_bands now (raw : list (ConditionProbability num)) :
  Permutation
    (map (fun c => (name c, confidence c)) (conditions (rankConditions now raw)))
    (map (fun c => (name c, confidence c)) raw).
Proof.
  unfold rankConditions; cbn [conditions].
  set (sorted := Array_sort byProbability raw).
  assert (Hs : Permutation sorted raw) by apply Array_sort_perm.
  destruct (lt zero _).
  - rewrite map_map; cbn [name confidence].
    now apply Permutation_map.
  - now apply Permutation_map.
Qed.

(** When the total is positive every probability is replaced by its share
    of the total, in percent. *)
Lemma rankConditions_normalized now (raw : list (ConditionProbability num)) :
  let sorted := Array_sort byProbability raw in
  let total := fold_left (fun sum c => add sum (probability c)) sorted zero in
  lt zero total = true ->
  map (@probability num) (conditions (rankConditions now raw)) =
  map (fun c => mul (div (probability c) total) (lit 100)) sorted.
Proof.
  intros sorted total H; unfold rankConditions; cbn [conditions].
  fold sorted; fold total; rewrite H.
  now rewrite map_map.
Qed.

End ClassifierFacts.

Lemma bool_lists_complete (n : nat) (l : list bool) :
  length l = n -> In l (bool_lists n).
Proof.
  revert l; induction n as [|n IH]; intros [|b l] H; simpl in *;
    try discriminate; auto.
  apply in_or_app.
  destruct b; [left | right]; apply in_map, IH; congruence.
Qed.

(** A property of the entries that holds for each of the 8192 outcomes of
    the rule tests holds for every analysis record. *)
Lemma by_rule_tests {num : Type} {JN : JsNumber num}
    (check : list (ConditionProbability num) -> bool) :
  forallb (fun tests => check (conditionsOfTests tests)) (bool_lists 13) = true ->
  forall a : CoughAnalysis num, check (scoredConditions a) = true.
Proof.
  intros H a; rewrite forallb_forall in H.
  rewrite scoredConditions_tests; apply H, bool_lists_complete, ruleTests_length.
Qed.

(** ** Determinism of the classifier *)

Section SortUnique.
Context {num : Type} {JN : JsNumber num} {A : Type}.
Variable compareFn : A -> A -> num.

Lemma consistent_facts (S : list A) (a b c : A) :
  consistentComparator compareFn S = true ->
  In a S -> In b S -> In c S ->
  tied compareFn a a = true /\
  (tied compareFn a b = true -> tied compareFn b a = true) /\
  (sortsAfter compareFn a b = true -> sortsAfter compareFn b c = true ->
   sortsAfter compareFn a c = true).
Proof.
  unfold consistentComparator; intros H Ha Hb Hc.
  rewrite forallb_forall in H; specialize (H a Ha).
  apply andb_prop in H; destruct H as [Haa H].
  rewrite forallb_forall in H; specialize (H b Hb).
  apply andb_prop in H; destruct H as [Hsym H].
  rewrite forallb_forall in H; specialize (H c Hc).
  apply andb_prop in H; destruct H as [H Hafter].
  split; [exact Haa | split].
  - intros Hab; rewrite Hab in Hsym; exact Hsym.
  - intros Hab Hbc; rewrite Hab, Hbc in Hafter; exact Hafter.
Qed.

(** Under a consistent comparator no two entries stand in sort order both
    ways. *)
Lemma inSortOrder_asymmetric (S : list A) (p q : nat * A) :
  consistentComparator compareFn S = true ->
  In (snd p) S -> In (snd q) S ->
  inSortOrder compareFn p q -> inSortOrder compareFn q p -> False.
Proof.
  intros Hc Hp Hq [Hqp Hpq] [Hpq' Hqp'].
  destruct (consistent_facts S (snd p) (snd q) (snd p) Hc Hp Hq Hp)
    as [Hpp [Hsym Htrans]].
  destruct (consistent_facts S (snd q) (snd p) (snd q) Hc Hq Hp Hq)
    as [_ [Hsym' _]].
  unfold tied in *.
  rewrite Hpq' in *; rewrite Hqp in *; cbn [negb andb] in *.
  destruct (sortsAfter compareFn (snd p) (snd q)) eqn:Ea;
    destruct (sortsAfter compareFn (snd q) (snd p)) eqn:Eb;
    cbn [negb] in *.
  - specialize (Htrans eq_refl eq_refl).
    rewrite Htrans in Hpp; rewrite andb_false_r in Hpp; discriminate.
  - specialize (Hsym' eq_refl); discriminate.
  - specialize (Hsym eq_refl); discriminate.
  - specialize (Hpq eq_refl); specialize (Hqp' eq_refl); lia.
Qed.

Lemma sorted_unique {B : Type} (R : B -> B -> Prop) (l1 : list B) :
  forall l2 : list B,
    (forall p q, In p l1 -> In q l1 -> R p q -> R q p -> False) ->
    StronglySorted R l1 -> StronglySorted R l2 -> Permutation l1 l2 ->
    l1 = l2.
Proof.
  induction l1 as [|a t1 IH]; intros l2 Hasym H1 H2 Hperm.
  - now apply Permutation_nil in Hperm.
  - destruct l2 as [|b t2];
      [apply Permutation_sym, Permutation_nil in Hperm; discriminate|].
    inversion H1 as [|? ? Ht1 Ha]; subst.
    inversion H2 as [|? ? Ht2 Hb]; subst.
    assert (Hab : a = b).
    { assert (Ina : In a (b :: t2))
        by (apply (Permutation_in _ Hperm); now left).
      assert (Inb : In b (a :: t1))
        by (apply (Permutation_in _ (Permutation_sym Hperm)); now left).
      destruct Ina as [E|Ina]; [now symmetry|].
      destruct Inb as [E|Inb]; [exact E|].
      exfalso; apply (Hasym a b); [now left | now right | |].
      + rewrite Forall_forall in Ha; now apply Ha.
      + rewrite Forall_forall in Hb; now apply Hb. }
    subst b; f_equal.
    apply IH; auto.
    + intros p q Hp Hq; apply Hasym; now right.
    + now apply Permutation_cons_inv in Hperm.
Qed.

Lemma indexed_In (l : list A) (p : nat * A) :
  In p (indexed l) -> In (snd p) l.
Proof.
  destruct p as [i x]; unfold indexed; intros H.
  now apply in_combine_r in H.
Qed.

(** A consistent comparator leaves the sort one result. *)
Lemma sortResult_unique (l s1 s2 : list A) :
  consistentComparator compareFn l = true ->
  sortResult compareFn l s1 -> sortResult compareFn l s2 -> s1 = s2.
Proof.
  intros Hc [e1 [P1 [-> S1]]] [e2 [P2 [-> S2]]].
  f_equal.
  apply (sorted_unique (inSortOrder compareFn)); auto.
  - intros p q Hp Hq.
    apply (inSortOrder_asymmetric l); [exact Hc | |];
      apply indexed_In; apply (Permutation_in _ P1); assumption.
  - now rewrite P1, P2.
Qed.

Lemma allInSortOrder_sorted (entries : list (nat * A)) :
  allInSortOrder compareFn entries = true ->
  StronglySorted (inSortOrder compareFn) entries.
Proof.
  induction entries as [|p rest IH]; cbn [allInSortOrder]; intros H;
    constructor.
  - apply IH; now apply andb_prop in H.
  - apply andb_prop in H; destruct H as [H _].
    rewrite forallb_forall in H; rewrite Forall_forall.
    intros q Hq; specialize (H q Hq).
    unfold inSortOrder_bool in H; apply andb_prop in H; destruct H as [H1 H2].
    split.
    + now destruct (sortsBefore compareFn (snd q) (snd p)).
    + intros Ht; rewrite Ht in H2; cbn [implb] in H2.
      now apply Nat.ltb_lt.
Qed.

Lemma sort_insert_entries (p : nat * A) (entries : list (nat * A)) :
  map snd (sort_insert (compareEntries compareFn) p entries)
  = sort_insert compareFn (snd p) (map snd entries).
Proof.
  induction entries as [|q rest IH]; [reflexivity|].
  cbn [sort_insert map]; unfold compareEntries at 1.
  destruct (lt zero (compareFn (snd p) (snd q))); cbn [map]; [|reflexivity].
  now rewrite IH.
Qed.

Lemma Array_sort_entries (entries : list (nat * A)) :
  map snd (Array_sort (compareEntries compareFn) entries)
  = Array_sort compareFn (map snd entries).
Proof.
  induction entries as [|p rest IH]; [reflexivity|].
  cbn [Array_sort fold_right map].
  fold (Array_sort (compareEntries compareFn) rest).
  fold (Array_sort compareFn (map snd rest)).
  now rewrite sort_insert_entries, IH.
Qed.

Lemma indexed_elements (l : list A) : map snd (indexed l) = l.
Proof.
  unfold indexed; generalize 0%nat.
  induction l as [|x l IH]; intros n; [reflexivity|].
  cbn [length seq combine map snd]; now rewrite IH.
Qed.

(** The stable sort of the model is a result that the contract allows. *)
Lemma Array_sort_sortResult (l : list A) :
  allInSortOrder compareFn (Array_sort (compareEntries compareFn) (indexed l))
  = true ->
  sortResult compareFn l (Array_sort compareFn l).
Proof.
  intros H.
  exists (Array_sort (compareEntries compareFn) (indexed l)).
  split; [apply Array_sort_perm | split].
  - now rewrite Array_sort_entries, indexed_elements.
  - intros _; now apply allInSortOrder_sorted.
Qed.

End SortUnique.

(** For each of the 8192 outcomes of the rule tests the comparator of
    [predict] is consistent on the four entries, and the stable sort leaves
    them in sort order. *)
Lemma comparator_check :
  forallb
    (fun tests =>
       (fun raw : list (ConditionProbability float) =>
          consistentComparator byProbability raw &&
          allInSortOrder byProbability
            (Array_sort (compareEntries byProbability) (indexed raw)))
         (conditionsOfTests tests))
    (bool_lists 13) = true.
Proof. vm_cast_no_check (eq_refl true). Qed.

Lemma predict_predicts (now : Z) (analysis : CoughAnalysis float) :
  predicts now analysis (predict now analysis).
Proof.
  pose proof (by_rule_tests _ comparator_check analysis) as H.
  cbv beta in H; apply andb_prop in H; destruct H as [_ H].
  exists (Array_sort byProbability (scoredConditions analysis)); split.
  - now apply Array_sort_sortResult.
  - reflexivity.
Qed.

(** C9: the classifier is deterministic.  A call of [predict] reads two
    things besides its argument: the clock, and the order in which the
    engine's sort leaves the four entries.  Whatever the clock says and
    whatever the sort does within its contract, two calls on the same
    Analysis Record return results that agree in the conditions (names,
    order, probabilities and confidence bands), in the dominant condition and
    in the overall confidence, and differ only in the timestamp, which is the
    clock reading of the call: the probabilities are never NaN, so the
    comparator is consistent and the stable sort has one result.  The result
    of the model, [predict now analysis], is that result. *)
Theorem predict_deterministic :
  forall analysis : CoughAnalysis float,
    (forall now : Z, predicts now analysis (predict now analysis)) /\
    (forall (now1 now2 : Z) (result1 result2 : CoughClassification float),
       predicts now1 analysis result1 ->
       predicts now2 analysis result2 ->
       conditions result1 = conditions result2 /\
       dominantCondition result1 = dominantCondition result2 /\
       overallConfidence result1 = overallConfidence result2 /\
       analysisTimestamp result1 = now1 /\
       analysisTimestamp result2 = now2).
Proof.
  intros analysis; split; [intros now; apply predict_predicts|].
  intros now1 now2 result1 result2 [s1 [H1 ->]] [s2 [H2 ->]].
  pose proof (by_rule_tests _ comparator_check analysis) as H.
  cbv beta in H; apply andb_prop in H; destruct H as [Hc _].
  assert (E : s1 = s2) by (apply (sortResult_unique byProbability _ _ _ Hc H1 H2)).
  subst s2; repeat apply conj; reflexivity.
Qed.

(** Two calls on the record [Records.longCough], at the clock readings 0
    and 1. *)
Lemma predict_deterministic_witness :
  conditions (predict 0 Records.longCough)
  = conditions (predict 1 Records.longCough) /\
  dominantCondition (predict 0 Records.longCough)
  = dominantCondition (predict 1 Records.longCough) /\
  overallConfidence (predict 0 Records.longCough)
  = overallConfidence (predict 1 Records.longCough) /\
  analysisTimestamp (predict 0 Records.longCough) = 0%Z /\
  analysisTimestamp (predict 1 Records.longCough) = 1%Z.
Proof.
  apply (proj2 (predict_deterministic Records.longCough) 0%Z 1%Z);
    apply (proj1 (predict_deterministic Records.longCough)).
Defined.

Lemma all_zero_check :
  forallb
    (fun tests =>
       (fun raw : list (ConditionProbability float) =>
          implb (forallb (fun c => PrimFloat.eqb (probability c) 0) raw)
                (forallb (fun c => PrimFloat.eqb (probability c) 0)
                         (conditions (rankConditions 0 raw))
                 && String.eqb (dominantCondition (rankConditions 0 raw))
                               "COVID-19"))
         (conditionsOfTests tests))
    (bool_lists 13) = true.
Proof. vm_compute; reflexivity. Qed.

(** C3 (amended): when all four raw scores are zero the probabilities of
    the result all remain zero and the dominant condition is "COVID-19",
    the first of the four conditions, which the stable sort leaves in
    front; the result always lists four conditions, so the "Unknown" of the
    empty list is not reported. *)
Theorem all_zero_scores_dominant :
  forall (now : Z) (a : CoughAnalysis float),
    Forall (fun c => PrimFloat.eqb (probability c) 0 = true)
           (scoredConditions a) ->
    Forall (fun c => PrimFloat.eqb (probability c) 0 = true)
           (conditions (predict now a)) /\
    dominantCondition (predict now a) = "COVID-19"%string.
Proof.
  intros now a H.
  pose proof (by_rule_tests _ all_zero_check a) as C; cbv beta in C.
  assert (Hb : forallb (fun c => PrimFloat.eqb (probability c) 0)
                       (scoredConditions a) = true).
  { apply forallb_forall; now apply Forall_forall. }
  rewrite Hb in C; cbn [implb] in C.
  apply andb_prop in C; destruct C as [C1 C2]; split.
  - apply Forall_forall; rewrite forallb_forall in C1; exact C1.
  - now apply String.eqb_eq in C2.
Qed.

(** The record [Records.onThresholds] has four raw scores of zero. *)
Lemma all_zero_scores_dominant_witness :
  Forall (fun c => PrimFloat.eqb (probability c) 0 = true)
    (conditions (predict 0 Records.onThresholds)) /\
  dominantCondition (predict 0 Records.onThresholds) = "COVID-19"%string.
Proof.
  apply (all_zero_scores_dominant 0 Records.onThresholds).
  repeat constructor.
Defined.

(** C3 (counterexample): all four raw scores of the record
    [Records.onThresholds] are zero, and its dominant condition is not
    "Unknown". *)
Lemma all_zero_scores_not_Unknown :
  ~ (Forall (fun c => PrimFloat.eqb (probability c) 0 = true)
       (scoredConditions Records.onThresholds) ->
     dominantCondition (predict 0 Records.onThresholds) = "Unknown"%string).
Proof.
  intros H.
  assert (E : dominantCondition (predict 0 Records.onThresholds)
              = "Unknown"%string) by (apply H; repeat constructor).
  vm_compute in E; discriminate.
Qed.

Lemma capped_band_check :
  forallb
    (fun tests =>
       forallb
         (fun c : ConditionProbability float =>
            match confidence c,
                  (if (0.6 <? probability c)%float then high
                   else if (0.3 <? probability c)%float then medium else low)
            with
            | low, low | medium, medium | high, high => true
            | _, _ => false
            end)
         (conditionsOfTests tests))
    (bool_lists 13) = true.
Proof. vm_compute; reflexivity. Qed.

(** C4 (amended): every condition of a Classification Result carries the
    band of its raw score [s], the rule sum before the cap and before
    normalization: "high" if [s > 0.6], "medium" if [s > 0.3], else "low";
    the score capped at 0.95 has the same band.  A raw score of exactly 0.6
    yields "medium", and a raw score of exactly 0.3 yields "low". *)
Theorem confidence_band_of_raw_score :
  forall (now : Z) (a : CoughAnalysis float),
    Permutation
      (map (fun c => (name c, confidence c)) (conditions (predict now a)))
      (map (fun ns : string * float =>
              (fst ns,
               if (0.6 <? snd ns)%float then high
               else if (0.3 <? snd ns)%float then medium else low))
           (rawScores a)) /\
    Forall (fun c : ConditionProbability float =>
              confidence c =
              if (0.6 <? probability c)%float then high
              else if (0.3 <? probability c)%float then medium else low)
           (scoredConditions a) /\
    confidenceOf 0.6%float = medium /\
    confidenceOf 0.3%float = low.
Proof.
  intros now a; repeat split.
  - unfold predict; rewrite rankConditions_bands; reflexivity.
  - pose proof (by_rule_tests _ capped_band_check a) as C; cbv beta in C.
    rewrite forallb_forall in C; apply Forall_forall; intros c Hc.
    specialize (C c Hc).
    destruct (confidence c);
      destruct (if (0.6 <? probability c)%float then high
                else if (0.3 <? probability c)%float then medium else low);
      first [reflexivity | discriminate].
Qed.

(** C4 (counterexample): the asthma score of the record [Records.longCough]
    is exactly 0.3, and the band of "Asthma" in its result is "low", not
    "medium". *)
Lemma raw_score_three_tenths_is_low :
  asthmaScore Records.longCough = 0.3%float /\
  map (fun c => (name c, confidence c))
      (conditions (predict 0 Records.longCough))
  = [("Bronchitis", medium); ("COVID-19", low); ("Asthma", low);
     ("Pneumonia", low)]%string.
Proof. split; vm_compute; reflexivity. Qed.

(** The asthma score of [Records.lowCough] is exactly 0.6, and its band is
    "medium". *)
Lemma raw_score_six_tenths_is_medium :
  asthmaScore Records.lowCough = 0.6%float /\
  map (fun c => (name c, confidence c))
      (conditions (predict 0 Records.lowCough))
  = [("Asthma", medium); ("Bronchitis", medium); ("COVID-19", low);
     ("Pneumonia", low)]%string.
Proof. split; vm_compute; reflexivity. Qed.

Lemma never_Unknown_check :
  forallb
    (fun tests =>
       negb (String.eqb
               (dominantCondition
                  (rankConditions 0
                     (conditionsOfTests (num := float) tests)))
               "Unknown"))
    (bool_lists 13) = true.
Proof. vm_compute; reflexivity. Qed.

(** The dominant condition of a result is never "Unknown". *)
Lemma dominantCondition_not_Unknown (now : Z) (a : CoughAnalysis float) :
  dominantCondition (predict now a) <> "Unknown"%string.
Proof.
  pose proof (by_rule_tests
                (fun raw => negb (String.eqb
                                    (dominantCondition (rankConditions 0 raw))
                                    "Unknown"))
                never_Unknown_check a) as C; cbv beta in C.
  apply negb_true_iff, String.eqb_neq in C; exact C.
Qed.

Lemma normalization_check :
  forallb
    (fun tests =>
       (fun raw : list (ConditionProbability float) =>
          implb (existsb (fun c => negb (PrimFloat.eqb (probability c) 0)) raw)
                (lt zero
                    (fold_left (fun sum c => add sum (probability c))
                               (Array_sort byProbability raw) zero)
                 && match Exact.sum (map (@probability float)
                                         (conditions (rankConditions 0 raw))) with
                    | Some s => Exact.within_bool s 100 1e-6
                    | None => false
                    end))
         (conditionsOfTests tests))
    (bool_lists 13) = true.
Proof. vm_compute; reflexivity. Qed.

(** C6: when at least one of the four raw scores is nonzero, every
    probability of the result is its raw score over the sum of the raw
    scores, times 100, and the probabilities sum to 100 within a relative
    tolerance of 1e-6. *)
Theorem probabilities_sum_to_100 :
  forall (now : Z) (a : CoughAnalysis float),
    Exists (fun c => PrimFloat.eqb (probability c) 0 = false)
           (scoredConditions a) ->
    let sorted := Array_sort byProbability (scoredConditions a) in
    let total :=
      fold_left (fun sum c => (sum + probability c)%float) sorted 0%float in
    map (@probability float) (conditions (predict now a)) =
    map (fun c => (probability c / total * 100)%float) sorted /\
    exists s : Q,
      Exact.sum (map (@probability float) (conditions (predict now a))) = Some s /\
      Exact.within s 100 1e-6.
Proof.
  intros now a H sorted total.
  pose proof (by_rule_tests _ normalization_check a) as C; cbv beta in C.
  assert (Hb : existsb (fun c => negb (PrimFloat.eqb (probability c) 0))
                       (scoredConditions a) = true).
  { apply existsb_exists; apply Exists_exists in H.
    destruct H as [c [Hc Hz]]; exists c; split; [exact Hc|].
    now rewrite Hz. }
  rewrite Hb in C; cbn [implb] in C.
  apply andb_prop in C; destruct C as [Ht Hs]; split.
  - unfold predict.
    rewrite (rankConditions_normalized now (scoredConditions a) Ht).
    reflexivity.
  - change (conditions (predict now a))
      with (conditions (rankConditions 0 (scoredConditions a))).
    destruct (Exact.sum _) as [s|]; [|discriminate].
    exists s; split; [reflexivity|].
    unfold Exact.within_bool in Hs; now apply Qle_bool_iff in Hs.
Qed.

(** The record [Records.longCough] has a nonzero score. *)
Lemma probabilities_sum_to_100_witness :
  map (@probability float) (conditions (predict 0 Records.longCough)) =
  map (fun c =>
         (probability c /
          fold_left (fun sum c => (sum + probability c)%float)
            (Array_sort byProbability (scoredConditions Records.longCough))
            0%float * 100)%float)
      (Array_sort byProbability (scoredConditions Records.longCough)) /\
  exists s : Q,
    Exact.sum (map (@probability float)
                   (conditions (predict 0 Records.longCough))) = Some s /\
    Exact.within s 100 1e-6.
Proof.
  apply (probabilities_sum_to_100 0 Records.longCough).
  apply Exists_cons_hd; reflexivity.
Defined.

(** ** The wheeze heuristic *)

Section WheezeFacts.
Context {num : Type} {JN : JsNumber num}.
Variable features : list num.
Variable nf : nat.
Hypothesis features_length : length features = (13 * nf)%nat.

Lemma wheezingPattern_frame (k : nat) :
  (k < nf)%nat -> wheezingPattern features (13 * k) = frameMatches features k.
Proof.
  intros Hk; unfold wheezingPattern, frameMatches, get_opt, get.
  rewrite (nth_error_nth' features NaN) by lia.
  rewrite (nth_error_nth' features NaN) by lia.
  reflexivity.
Qed.

Lemma wheezingLoop_frames (fuel : nat) :
  forall k count,
    (k <= nf)%nat -> (nf - k <= fuel)%nat ->
    wheezingLoop features fuel (13 * k) count =
    (count + length (filter (frameMatches features) (seq k (nf - k))))%nat.
Proof.
  induction fuel as [|fuel IH]; intros k count Hk Hfuel.
  - replace (nf - k)%nat with O by lia; simpl; lia.
  - cbn [wheezingLoop].
    destruct (Nat.ltb_spec (13 * k) (length features)) as [Hlt|Hge].
    + assert (Hk' : (k < nf)%nat) by lia.
      replace (13 * k + 13)%nat with (13 * S k)%nat by lia.
      rewrite IH by lia.
      rewrite wheezingPattern_frame by exact Hk'.
      replace (nf - k)%nat with (S (nf - S k)) by lia.
      cbn [seq filter].
      destruct (frameMatches features k); cbn [length]; lia.
    + replace (nf - k)%nat with O by lia; simpl; lia.
Qed.

Lemma wheezingLoop_count :
  wheezingLoop features (length features) 0 0 = matchingFrames features nf.
Proof.
  change 0%nat with (13 * 0)%nat at 1.
  rewrite wheezingLoop_frames by lia.
  unfold matchingFrames; now rewrite Nat.sub_0_r.
Qed.

Lemma detectWheezing_majority :
  detectWheezing features = true <->
  (nf < 2 * matchingFrames features nf)%nat.
Proof.
  unfold detectWheezing; rewrite wheezingLoop_count, features_length.
  unfold Qlt_bool; rewrite negb_true_iff, <- not_true_iff_false, Qle_bool_iff.
  unfold Qle, Qdiv, Qmult, Qinv, inject_Z; cbn [Qnum Qden].
  lia.
Qed.

End WheezeFacts.

(** C7: on a feature set of [nf] frames the wheeze heuristic fires exactly
    when the frames whose coefficient 2 exceeds 0.5 and whose coefficient 3
    is below -0.3 number more than [nf / 2]: [nf / 2 + 1] matching frames
    (with the rounded-down half) make it fire, and [nf / 2] do not. *)
Theorem detectWheezing_iff_majority :
  forall (num : Type) (JN : JsNumber num) (features : list num) (nf : nat),
    length features = (13 * nf)%nat ->
    (detectWheezing features = true <->
     (nf < 2 * matchingFrames features nf)%nat) /\
    (matchingFrames features nf = (nf / 2 + 1)%nat ->
     detectWheezing features = true) /\
    (matchingFrames features nf = (nf / 2)%nat ->
     detectWheezing features = false).
Proof.
  intros num JN features nf Hlen.
  pose proof (detectWheezing_majority features nf Hlen) as Hiff.
  pose proof (Nat.div_mod_eq nf 2) as Hdiv.
  pose proof (Nat.mod_upper_bound nf 2) as Hmod.
  repeat split.
  - apply Hiff.
  - apply Hiff.
  - intros Hm; apply Hiff; lia.
  - intros Hm; apply not_true_iff_false; intros Hd.
    apply Hiff in Hd; lia.
Qed.

(** The feature set [Records.twoFrames] has two frames. *)
Lemma detectWheezing_iff_majority_witness :
  (detectWheezing Records.twoFrames = true <->
   (2 < 2 * matchingFrames Records.twoFrames 2)%nat) /\
  (matchingFrames Records.twoFrames 2 = (2 / 2 + 1)%nat ->
   detectWheezing Records.twoFrames = true) /\
  (matchingFrames Records.twoFrames 2 = (2 / 2)%nat ->
   detectWheezing Records.twoFrames = false).
Proof.
  apply (detectWheezing_iff_majority float float_number Records.twoFrames 2).
  reflexivity.
Defined.

(** ** The spectral transform *)

Section TransformFacts.
Context {num : Type} {JN : JsNumber num} {JM : JsMath num}.

(** The transform of [N] samples has [2 N] entries: entry [2 k] holds the
    stored real sum and entry [2 k + 1] the stored imaginary sum of the
    inner loop for [k]. *)
Lemma computeFFT_entries (signal : list num) :
  length (computeFFT signal) = (2 * length signal)%nat /\
  forall k, (k < length signal)%nat ->
    get (computeFFT signal) (2 * k) = fround (fst (fourierSums signal k)) /\
    get (computeFFT signal) (2 * k + 1) = fround (snd (fourierSums signal k)).
Proof.
  unfold computeFFT.
  set (N := length signal).
  apply (for_loop_invariant
           (fun K result =>
              length result = (2 * N)%nat /\
              forall k, (k < K)%nat ->
                get result (2 * k) = fround (fst (fourierSums signal k)) /\
                get result (2 * k + 1) = fround (snd (fourierSums signal k)))).
  - lia.
  - split; [rewrite repeat_length; lia | intros k Hk; lia].
  - intros K result HK [Hlen Hget].
    destruct (fourierSums signal K) as [re im] eqn:E.
    split; [now rewrite !set_length|].
    intros k Hk.
    destruct (Nat.eq_dec k K) as [->|Hne].
    + rewrite E; cbn [fst snd]; split.
      * rewrite get_set_neq by lia.
        replace (K * 2)%nat with (2 * K)%nat by lia.
        apply get_set_eq; lia.
      * replace (K * 2 + 1)%nat with (2 * K + 1)%nat by lia.
        apply get_set_eq; rewrite set_length; lia.
    + rewrite !get_set_neq by lia.
      apply Hget; lia.
Qed.

Lemma computeFFT_length (signal : list num) :
  length (computeFFT signal) = (2 * length signal)%nat.
Proof. apply computeFFT_entries. Qed.

End TransformFacts.

(** Reading the operations of [real_number] and [real_math]. *)
Ltac ideal :=
  unfold zero, of_nat in *;
  cbn [lit of_int add sub mul div lt ge Math_sqrt Math_min Math_PI fround NaN
       Math_cos Math_sin Math_log real_number real_math] in *.

Section IdealTransform.
Local Open Scope R_scope.

Lemma Q2R_0 : Q2R 0 = 0.
Proof. unfold Q2R; simpl; lra. Qed.

(** The inner loop accumulates the two finite sums. *)
Lemma fourierSums_ideal (x : list R) (k : nat) :
  (1 <= length x)%nat ->
  fourierSums x k = (Ideal.dft_re x k, Ideal.dft_im x k).
Proof.
  intros HN; unfold fourierSums, Ideal.dft_re, Ideal.dft_im.
  set (N := length x) in *.
  assert (HNR : INR N <> 0) by (apply not_0_INR; lia).
  assert (Hangle : forall n,
             (lit (-2) * Math_PI * of_nat k * of_nat n / of_nat N)%js =
             - 2 * PI * INR k * INR n / INR N).
  { intros n; ideal; rewrite <- !INR_IZR_INZ.
    unfold Q2R; simpl; field; exact HNR. }
  replace N with (S (N - 1)) at 1 by lia.
  induction (N - 1)%nat as [|m IH].
  - rewrite for_loop_last, for_loop_empty by lia.
    rewrite Hangle; ideal; unfold get; ideal.
    rewrite Q2R_0; cbn [sum_f_R0]; f_equal; ring.
  - rewrite for_loop_last by lia; rewrite IH.
    rewrite Hangle; ideal; unfold get; ideal; reflexivity.
Qed.

End IdealTransform.

(** In exact arithmetic the transform of a frame [x] of [N >= 1] samples
    holds the real and the imaginary parts of the discrete Fourier sums. *)
Lemma computeFFT_exact_arithmetic :
  forall x : list R,
    (1 <= length x)%nat ->
    length (computeFFT x) = (2 * length x)%nat /\
    forall k, (k < length x)%nat ->
      nth (2 * k) (computeFFT x) 0%R = Ideal.dft_re x k /\
      nth (2 * k + 1) (computeFFT x) 0%R = Ideal.dft_im x k.
Proof.
  intros x HN.
  destruct (computeFFT_entries x) as [Hlen Hget].
  split; [exact Hlen|].
  intros k Hk; specialize (Hget k Hk).
  rewrite (fourierSums_ideal x k HN) in Hget.
  exact Hget.
Qed.

(** ** The transform in the program's arithmetic *)

Section RoundedTransform.
Context {num : Type} {JN : JsNumber num} {JM : JsMath num}.

(** A loop that adds a term per index accumulates the sum of the terms. *)
Lemma for_loop_accumulate (t : nat -> num) (n : nat) :
  for_loop 0 n (fun j sum => add sum (t j)) zero = Direct.accumulate t n.
Proof.
  induction n as [|n IH]; [reflexivity|].
  rewrite for_loop_last by lia; now rewrite IH.
Qed.

Lemma accumulate_ext (t u : nat -> num) (n : nat) :
  (forall j, (j < n)%nat -> t j = u j) ->
  Direct.accumulate t n = Direct.accumulate u n.
Proof.
  induction n as [|n IH]; intros H; [reflexivity|].
  cbn [Direct.accumulate]; rewrite IH, H by (intros; try apply H; lia).
  reflexivity.
Qed.

Lemma fourierSums_accumulate (x : list num) (k : nat) :
  fourierSums x k = (Direct.re x k, Direct.im x k).
Proof.
  unfold fourierSums, Direct.re, Direct.im, Direct.angle.
  match goal with
  | |- for_loop 0 _ ?body ?init
       = (Direct.accumulate ?re _, Direct.accumulate ?im _) =>
      assert (G : forall n,
                for_loop 0 n body init
                = (Direct.accumulate re n, Direct.accumulate im n))
  end.
  { induction n as [|n IH]; [reflexivity|].
    rewrite for_loop_last by lia; rewrite IH; reflexivity. }
  apply G.
Qed.

End RoundedTransform.

(** In exact arithmetic the sums of the program are the Fourier sums. *)
Lemma direct_sums_exact (x : list R) (k : nat) :
  (1 <= length x)%nat ->
  Direct.re x k = Ideal.dft_re x k /\ Direct.im x k = Ideal.dft_im x k.
Proof.
  intros HN.
  pose proof (fourierSums_accumulate x k) as E.
  rewrite (fourierSums_ideal x k HN) in E.
  split; congruence.
Qed.

(** C8 (amended): for every frame [x] of [N] samples the spectral transform
    returns [2 N] values, and for every [k < N] the values at [2 k] and
    [2 k + 1] are the sums over [n < N] of [x[n] cos(-2 pi k n / N)] and of
    [x[n] sin(-2 pi k n / N)] as the program's arithmetic gives them: the
    terms are added in double precision in the order of [n], and the sum is
    rounded to single precision when it is stored. *)
Theorem computeFFT_stores_rounded_sums :
  forall (num : Type) (JN : JsNumber num) (JM : JsMath num) (x : list num),
    length (computeFFT x) = (2 * length x)%nat /\
    forall k, (k < length x)%nat ->
      get (computeFFT x) (2 * k) = fround (Direct.re x k) /\
      get (computeFFT x) (2 * k + 1) = fround (Direct.im x k).
Proof.
  intros num JN JM x.
  destruct (computeFFT_entries x) as [Hlen Hget].
  split; [exact Hlen|].
  intros k Hk; specialize (Hget k Hk).
  now rewrite (fourierSums_accumulate x k) in Hget.
Qed.

Lemma value_of_quotient (x : float) (n : Z) (d : positive) :
  Binary64.to_Q x = Some (n # d) -> Doubles.value x = (IZR n / IZR (Zpos d))%R.
Proof. unfold Doubles.value; intros ->; reflexivity. Qed.

(** C8 (counterexample): in binary64 the transform of the frame of the two
    single-precision samples 1 and [2^-24] holds 1 at index 0, where the
    Fourier sum is [1 + 2^-24]: the sum is exact in double precision and is
    rounded when it is stored. *)
Lemma computeFFT_not_exact_sum :
  map fround Waves.faint = Waves.faint /\
  get (computeFFT (JM := Host.math) Waves.faint) 0 = 1%float /\
  Ideal.dft_re (map Doubles.value Waves.faint) 0 = (1 + / 2 ^ 24)%R /\
  Doubles.value (get (computeFFT (JM := Host.math) Waves.faint) 0)
  <> Ideal.dft_re (map Doubles.value Waves.faint) 0.
Proof.
  assert (E0 : get (computeFFT (JM := Host.math) Waves.faint) 0 = 1%float)
    by (vm_compute; reflexivity).
  assert (V1 : Doubles.value 1%float = 1%R).
  { rewrite (value_of_quotient 1 4503599627370496 4503599627370496 eq_refl).
    lra. }
  assert (V2 : Doubles.value 0x1p-24%float = (/ 2 ^ 24)%R).
  { rewrite (value_of_quotient 0x1p-24 4503599627370496
               75557863725914323419136 eq_refl).
    lra. }
  assert (S : Ideal.dft_re (map Doubles.value Waves.faint) 0 = (1 + / 2 ^ 24)%R).
  { unfold Waves.faint; cbn [map]; rewrite V1, V2.
    unfold Ideal.dft_re; cbn [length Nat.sub sum_f_R0 nth].
    replace (- 2 * PI * INR 0 * INR 0 / INR 2)%R with 0%R by (simpl; lra).
    replace (- 2 * PI * INR 0 * INR 1 / INR 2)%R with 0%R by (simpl; lra).
    rewrite cos_0; lra. }
  repeat apply conj.
  - vm_compute; reflexivity.
  - exact E0.
  - exact S.
  - rewrite E0, V1, S; lra.
Qed.

(** ** The spectral centroid *)

Section IdealCentroid.
Local Open Scope R_scope.

Lemma lt_ideal_true (a b : R) : a < b -> lt a b = true.
Proof. intros H; ideal; destruct (Rlt_dec a b); [reflexivity | contradiction]. Qed.

Lemma lt_ideal_false (a b : R) : b <= a -> lt a b = false.
Proof. intros H; ideal; destruct (Rlt_dec a b); [lra | reflexivity]. Qed.

(** Every bin frequency lies between 0 and [(M - 1) sampleRate / (2 M)]. *)
Lemma bin_frequency_bound (M i : nat) (sr : R) :
  (i < M)%nat -> 0 < sr ->
  0 <= INR i * sr / (2 * INR M) <= INR (M - 1) * sr / (2 * INR M).
Proof.
  intros Hi Hsr.
  assert (HM : 0 < INR M) by (apply lt_0_INR; lia).
  assert (Hi0 : 0 <= INR i) by apply pos_INR.
  assert (HiM : INR i <= INR (M - 1)) by (apply le_INR; lia).
  assert (Hinv : 0 < / (2 * INR M)) by (apply Rinv_0_lt_compat; lra).
  unfold Rdiv; split.
  - apply Rmult_le_pos; [apply Rmult_le_pos|]; lra.
  - apply Rmult_le_compat_r; [lra|].
    apply Rmult_le_compat_r; lra.
Qed.

(** In exact arithmetic the spectral centroid of a non-empty waveform at a
    positive sample rate lies in [[0, sampleRate / 2)]. *)
Lemma spectral_centroid_exact_arithmetic :
  forall (signal : list R) (sr : R),
    signal <> [] -> (0 < sr)%R ->
    (0 <= calculateSpectralCentroid signal sr < sr / 2)%R.
Proof.
  intros signal sr Hne Hsr; unfold calculateSpectralCentroid.
  rewrite computeFFT_length.
  replace (2 * length signal / 2)%nat with (length signal)
    by (rewrite Nat.mul_comm, Nat.div_mul; lia).
  set (M := length signal).
  assert (HM : (1 <= M)%nat)
    by (unfold M; destruct signal; [congruence | simpl; lia]).
  assert (HMR : 0 < INR M) by (apply lt_0_INR; lia).
  set (top := INR (M - 1) * sr / (2 * INR M)).
  assert (Htop : 0 <= top < sr / 2).
  { split.
    { pose proof (bin_frequency_bound M 0 sr HM Hsr) as B.
      fold top in B; lra. }
    unfold top; rewrite minus_INR by lia; simpl INR.
    apply Rmult_lt_reg_r with (2 * INR M); [lra|].
    unfold Rdiv; rewrite Rmult_assoc, Rinv_l by lra.
    nra. }
  match goal with
  | |- context [for_loop 0 M ?body ?init] =>
      assert (Inv : let '(ws, ms) := for_loop 0 M body init in
                    0 <= ms /\ 0 <= ws <= top * ms)
  end.
  { apply (for_loop_invariant
             (fun (_ : nat) (s : R * R) =>
                let '(ws, ms) := s in 0 <= ms /\ 0 <= ws <= top * ms)).
    - lia.
    - ideal; rewrite Q2R_0; lra.
    - intros i [ws ms] Hi [Hms [Hws0 Hws]]; ideal.
      set (magnitude := sqrt _).
      assert (Hmag : 0 <= magnitude) by apply sqrt_pos.
      assert (Hf : 0 <= IZR (Z.of_nat i) * sr / (Q2R 2 * IZR (Z.of_nat M))
                   <= top).
      { rewrite <- !INR_IZR_INZ.
        replace (Q2R 2) with 2 by (unfold Q2R; simpl; lra).
        apply bin_frequency_bound; [lia | exact Hsr]. }
      set (frequency := IZR (Z.of_nat i) * sr / _) in *.
      assert (0 <= frequency * magnitude) by (apply Rmult_le_pos; lra).
      assert (frequency * magnitude <= top * magnitude)
        by (apply Rmult_le_compat_r; lra).
      repeat split; lra. }
  destruct (for_loop 0 M _ _) as [ws ms].
  destruct Inv as [Hms [Hws0 Hws]].
  ideal; rewrite Q2R_0.
  destruct (Rlt_dec 0 ms) as [Hpos|Hnpos]; [|lra].
  split.
  - apply Rmult_le_pos; [lra|].
    apply Rlt_le, Rinv_0_lt_compat; exact Hpos.
  - apply Rle_lt_trans with top; [|lra].
    apply Rmult_le_reg_r with ms; [exact Hpos|].
    unfold Rdiv; rewrite Rmult_assoc, Rinv_l by lra.
    lra.
Qed.

End IdealCentroid.

(** ** Overflow of the stored spectrum *)



(** ** One second of silence *)

Section ListFacts.
Context {A : Type}.

Lemma firstn_repeat (a : A) (n m : nat) :
  firstn n (repeat a m) = repeat a (Nat.min n m).
Proof.
  revert m; induction n as [|n IH]; intros [|m]; simpl; try reflexivity.
  now rewrite IH.
Qed.

Lemma skipn_repeat (a : A) (n m : nat) :
  skipn n (repeat a m) = repeat a (m - n).
Proof.
  revert m; induction n as [|n IH]; intros [|m]; simpl; try reflexivity.
  apply IH.
Qed.

End ListFacts.

Section IdealSilence.
Local Open Scope R_scope.

Lemma zero_ideal : (zero : R) = 0.
Proof. apply Q2R_0. Qed.

Lemma update_zeros (m i : nat) : update (repeat 0 m) i 0 = repeat 0 m.
Proof.
  revert i; induction m as [|m IH]; intros [|i]; simpl; try reflexivity.
  now rewrite IH.
Qed.

Lemma set_zeros (m i : nat) (v : R) : v = 0 -> set (repeat 0 m) i v = repeat 0 m.
Proof. intros ->; unfold set; ideal; apply update_zeros. Qed.

Lemma get_zeros (m i : nat) : get (repeat 0 m) i = 0.
Proof. unfold get; ideal; apply nth_repeat. Qed.

(** A loop whose body stores zeros into an array of zeros leaves it. *)
Lemma for_loop_zeros (from to m : nat) (body : nat -> list R -> list R) :
  (forall i, body i (repeat 0 m) = repeat 0 m) ->
  for_loop from to body (repeat 0 m) = repeat 0 m.
Proof.
  intros H; unfold for_loop.
  induction (seq from (to - from)) as [|i l IH]; simpl; [reflexivity|].
  now rewrite H.
Qed.

Lemma for_loop_constant {S : Type} (from to : nat) (body : nat -> S -> S)
    (s : S) :
  (forall i, body i s = s) -> for_loop from to body s = s.
Proof.
  intros H; unfold for_loop.
  induction (seq from (to - from)) as [|i l IH]; simpl; [reflexivity|].
  now rewrite H.
Qed.

Lemma fourierSums_zeros (n k : nat) : fourierSums (repeat 0 n) k = (0, 0).
Proof.
  unfold fourierSums; rewrite zero_ideal.
  apply for_loop_constant; intros i.
  rewrite get_zeros; ideal; f_equal; ring.
Qed.

Lemma computeFFT_zeros (n : nat) : computeFFT (repeat 0 n) = repeat 0 (n * 2).
Proof.
  unfold computeFFT; rewrite repeat_length, zero_ideal.
  apply for_loop_zeros; intros k.
  rewrite fourierSums_zeros.
  now rewrite !set_zeros.
Qed.

Lemma calculateRMS_zeros (n : nat) : calculateRMS (repeat 0 n) = 0.
Proof.
  unfold calculateRMS; rewrite zero_ideal.
  rewrite for_loop_constant.
  - ideal; unfold Rdiv; rewrite Rmult_0_l; apply sqrt_0.
  - intros i; rewrite get_zeros; ideal; ring.
Qed.

Lemma calculateZeroCrossingRate_zeros (n : nat) :
  calculateZeroCrossingRate (repeat 0 n) = 0.
Proof.
  unfold calculateZeroCrossingRate.
  rewrite for_loop_constant.
  - ideal; simpl; unfold Rdiv; apply Rmult_0_l.
  - intros i; rewrite !get_zeros.
    now rewrite Bool.eqb_reflx.
Qed.

Lemma calculateSpectralCentroid_zeros (n : nat) (sr : R) :
  calculateSpectralCentroid (repeat 0 n) sr = 0.
Proof.
  unfold calculateSpectralCentroid.
  rewrite computeFFT_zeros, zero_ideal.
  rewrite for_loop_constant.
  - now rewrite lt_ideal_false by lra.
  - intros i; rewrite !get_zeros; ideal.
    replace (0 * 0 + 0 * 0) with 0 by ring.
    rewrite sqrt_0; f_equal; ring.
Qed.

Lemma preEmphasis_zeros (n : nat) (alpha : R) :
  preEmphasis (repeat 0 n) alpha = repeat 0 n.
Proof.
  unfold preEmphasis; rewrite repeat_length, zero_ideal.
  rewrite set_zeros by apply get_zeros.
  apply for_loop_zeros; intros i.
  apply set_zeros; rewrite !get_zeros; ideal; ring.
Qed.

Lemma slice_zeros (n start stop : nat) :
  (stop <= n)%nat ->
  slice (repeat 0 n) start stop = repeat 0 (stop - start).
Proof.
  intros H; unfold slice.
  rewrite skipn_repeat, firstn_repeat.
  f_equal; lia.
Qed.

Lemma applyHammingWindow_zeros (n : nat) :
  applyHammingWindow (repeat 0 n) = repeat 0 n.
Proof.
  unfold applyHammingWindow; rewrite repeat_length, zero_ideal.
  apply for_loop_zeros; intros i.
  apply set_zeros; rewrite get_zeros; ideal; ring.
Qed.

Lemma powerSpectrumOf_zeros (m : nat) :
  powerSpectrumOf (repeat 0 (m * 2)) = repeat 0 m.
Proof.
  unfold powerSpectrumOf; rewrite !repeat_length, zero_ideal.
  rewrite Nat.div_mul by lia.
  apply for_loop_zeros; intros i.
  apply set_zeros; rewrite !get_zeros; ideal; ring.
Qed.

End IdealSilence.

Section BlockStores.
Context {num : Type} {JN : JsNumber num}.

(** [for (let i = 0; i < n; i++) a[base + i] = v(i)] on an array that
    holds the block: the length is kept, the block receives the stored
    values, and the entries outside the block are not touched. *)
Lemma block_store (a : list num) (base n : nat) (v : nat -> num) :
  (base + n <= length a)%nat ->
  let a' := for_loop 0 n (fun i r => set r (base + i) (v i)) a in
  length a' = length a /\
  (forall i, (i < n)%nat -> get a' (base + i) = fround (v i)) /\
  (forall j, (j < base \/ base + n <= j)%nat -> get a' j = get a j).
Proof.
  intros Hfit a'; subst a'.
  assert (Inv : forall m, (m <= n)%nat ->
            let r := for_loop 0 m (fun i r => set r (base + i) (v i)) a in
            length r = length a /\
            (forall i, (i < m)%nat -> get r (base + i) = fround (v i)) /\
            (forall j, (j < base \/ base + m <= j)%nat -> get r j = get a j)).
  { induction m as [|m IH]; intros Hm.
    - rewrite for_loop_empty by lia.
      repeat split; intros; first [lia | reflexivity].
    - rewrite for_loop_last by lia.
      destruct (IH ltac:(lia)) as [Hlen [Hin Hout]].
      repeat split.
      + now rewrite set_length.
      + intros i Hi; destruct (Nat.eq_dec i m) as [->|Hne].
        * apply get_set_eq; lia.
        * rewrite get_set_neq by lia; apply Hin; lia.
      + intros j Hj; rewrite get_set_neq by lia; apply Hout; lia. }
  apply (Inv n); lia.
Qed.

End BlockStores.

Section IdealCepstrum.
Local Open Scope R_scope.

Lemma cos_midpoint_telescope (a t : R) :
  2 * sin (a / 2) * cos (a * (t + 1 / 2)) = sin (a * (t + 1)) - sin (a * t).
Proof.
  replace (a * (t + 1)) with (a * (t + 1 / 2) + a / 2) by field.
  replace (a * t) with (a * (t + 1 / 2) - a / 2) by field.
  rewrite sin_plus, sin_minus; ring.
Qed.

(** Over a flat power spectrum of [M >= 2] bins the cosines of coefficient
    2 cancel: the cepstral sum is 0. *)
Lemma cepstralSum_flat (M : nat) :
  (2 <= M)%nat -> cepstralSum (repeat 0 M) 2 = 0.
Proof.
  intros HM; unfold cepstralSum; rewrite repeat_length, zero_ideal.
  assert (HMR : 0 < INR M) by (apply lt_0_INR; lia).
  assert (H2M : 2 <= INR M) by (apply (le_INR 2); lia).
  set (a := 2 * PI / INR M).
  set (L := ln (0 + Q2R 1e-10)).
  assert (Hsin : 0 < sin (a / 2)).
  { pose proof PI_RGT_0 as Hpi.
    assert (Ha : a / 2 = PI / INR M) by (unfold a; field; lra).
    rewrite Ha; apply sin_gt_0.
    - apply Rdiv_lt_0_compat; lra.
    - apply Rmult_lt_reg_r with (INR M); [lra|].
      unfold Rdiv; rewrite Rmult_assoc, Rinv_l by lra.
      nra. }
  match goal with
  | |- for_loop 0 M ?body 0 = 0 =>
      assert (Inv : for_loop 0 M body 0 * (2 * sin (a / 2))
                    = L * sin (a * INR M))
  end.
  { apply (for_loop_invariant
             (fun j s => s * (2 * sin (a / 2)) = L * sin (a * INR j))).
    - lia.
    - simpl INR; rewrite Rmult_0_r, sin_0; ring.
    - intros j s Hj Hs; rewrite get_zeros; ideal; fold L.
      rewrite <- !INR_IZR_INZ.
      replace (PI * INR 2 * (INR j + Q2R 0.5) / INR M)
        with (a * (INR j + 1 / 2))
        by (unfold a, Q2R; simpl; field; lra).
      rewrite S_INR, Rmult_plus_distr_r, Hs.
      pose proof (cos_midpoint_telescope a (INR j)) as T.
      nra. }
  replace (a * INR M) with (2 * PI) in Inv by (unfold a; field; lra).
  rewrite sin_2PI, Rmult_0_r in Inv.
  apply Rmult_integral in Inv; destruct Inv as [Inv|Inv]; [exact Inv | lra].
Qed.

Lemma computeMFCC_silence (M : nat) (sr : R) :
  (2 <= M)%nat -> get (computeMFCC (repeat 0 M) sr) 2 = 0.
Proof.
  intros HM; unfold computeMFCC.
  rewrite computeFFT_zeros, powerSpectrumOf_zeros.
  destruct (block_store (repeat zero 13) 0 13
              (fun i => cepstralSum (repeat 0 M) i)) as [_ [Hin _]];
    [rewrite repeat_length; lia|].
  specialize (Hin 2%nat ltac:(lia)); cbn [Nat.add] in Hin.
  rewrite Hin; ideal; now apply cepstralSum_flat.
Qed.

End IdealCepstrum.

Section WheezeNone.
Context {num : Type} {JN : JsNumber num}.

Lemma matchingFrames_none (features : list num) (nf : nat) :
  (forall k, (k < nf)%nat -> frameMatches features k = false) ->
  matchingFrames features nf = O.
Proof.
  intros H; unfold matchingFrames.
  assert (E : filter (frameMatches features) (seq 0 nf) = []).
  { induction nf as [|n IH]; [reflexivity|].
    rewrite seq_S, filter_app; simpl.
    rewrite IH by (intros; apply H; lia).
    now rewrite H by lia. }
  now rewrite E.
Qed.

End WheezeNone.

Section IdealFeatures.
Local Open Scope R_scope.

(** The feature set of a silent waveform: coefficient 2 of every frame
    is 0. *)
Lemma extractMFCCFeatures_silence (n nf : nat) (sr : R) :
  numFrames (Z.of_nat n) = Z.of_nat nf ->
  exists features : list R,
    extractMFCCFeatures {| channelData := repeat 0 n; sampleRate := sr |}
    = Return features /\
    length features = (13 * nf)%nat /\
    forall f, (f < nf)%nat -> get features (13 * f + 2) = 0.
Proof.
  intros Hnf.
  assert (Hfit : forall f, (f < nf)%nat ->
            (f * Z.to_nat hopSize + Z.to_nat windowSize <= n)%nat).
  { intros f Hf; unfold numFrames, windowSize, hopSize in *.
    pose proof (Z.mul_div_le (Z.of_nat n - 2048) 512 ltac:(lia)).
    lia. }
  unfold extractMFCCFeatures; cbn [channelData sampleRate].
  rewrite preEmphasis_zeros, repeat_length, Hnf.
  unfold new_Float32Array.
  destruct (Z.ltb_spec (Z.of_nat nf * 13) 0) as [Hneg|_]; [lia|].
  cbn [bind]; eexists; split; [reflexivity|].
  rewrite Nat2Z.id.
  replace (Z.to_nat (Z.of_nat nf * 13)) with (13 * nf)%nat by lia.
  apply (for_loop_invariant
           (fun F (r : list R) =>
              length r = (13 * nf)%nat /\
              forall f, (f < F)%nat -> get r (13 * f + 2) = 0)).
  - lia.
  - split; [apply repeat_length | intros; lia].
  - intros F r HF [Hlen Hget].
    rewrite slice_zeros by (apply Hfit; lia).
    replace (F * Z.to_nat hopSize + Z.to_nat windowSize - F * Z.to_nat hopSize)%nat
      with (Z.to_nat windowSize) by lia.
    rewrite applyHammingWindow_zeros.
    set (mfcc := computeMFCC (repeat 0 (Z.to_nat windowSize)) sr).
    destruct (block_store r (F * 13) 13 (fun i => get mfcc i))
      as [Hlen' [Hin Hout]]; [lia|].
    split; [now rewrite Hlen'|].
    intros f Hf; destruct (Nat.eq_dec f F) as [->|Hne].
    + replace (13 * F + 2)%nat with (F * 13 + 2)%nat by lia.
      rewrite Hin by lia; ideal.
      apply computeMFCC_silence; unfold windowSize; lia.
    + rewrite Hout by lia; apply Hget; lia.
Qed.

Lemma detectWheezing_silence (features : list R) (nf : nat) :
  length features = (13 * nf)%nat ->
  (forall f, (f < nf)%nat -> get features (13 * f + 2) = 0) ->
  detectWheezing features = false.
Proof.
  intros Hlen Hget.
  apply not_true_iff_false; intros Hw.
  apply (detectWheezing_majority features nf Hlen) in Hw.
  rewrite matchingFrames_none in Hw; [lia|].
  intros k Hk; unfold frameMatches.
  rewrite (Hget k Hk), lt_ideal_false; [reflexivity|].
  ideal; unfold Q2R; simpl; lra.
Qed.

End IdealFeatures.

(** Deciding the comparisons of the rules over the reals. *)
Ltac decide_lt :=
  repeat match goal with
    | |- context [@lt R real_number ?a ?b] =>
        first [ rewrite (lt_ideal_true a b) by (ideal; unfold Q2R; simpl; lra)
              | rewrite (lt_ideal_false a b) by (ideal; unfold Q2R; simpl; lra) ]
    end.

Section IdealClassification.
Local Open Scope R_scope.
Variable now : Z.
Variable features : list R.
Hypothesis no_wheeze : detectWheezing features = false.

Lemma ruleTests_silence :
  ruleTests (Ideal.silentRecord now features) =
  [true; true; false; false;  false; true; false;
   false; true; true;  false; true; true].
Proof.
  unfold ruleTests, Ideal.silentRecord.
  cbn [duration rms zeroCrossingRate spectralCentroid mfccFeatures].
  rewrite no_wheeze; decide_lt; reflexivity.
Qed.

Lemma rawScores_silence :
  rawScores (Ideal.silentRecord now features) =
  [("COVID-19", 5 / 10); ("Asthma", 3 / 10);
   ("Bronchitis", 5 / 10); ("Pneumonia", 5 / 10)]%string.
Proof.
  unfold rawScores, covidScore, asthmaScore, bronchitisScore, pneumoniaScore,
    Ideal.silentRecord.
  cbn [duration rms zeroCrossingRate spectralCentroid mfccFeatures].
  rewrite no_wheeze; decide_lt; cbn [andb].
  repeat (f_equal; try (ideal; unfold Q2R; simpl; lra)).
Qed.

Lemma scoredConditions_silence :
  scoredConditions (Ideal.silentRecord now features) =
  [ {| name := "COVID-19"; probability := 5 / 10; confidence := medium |};
    {| name := "Asthma"; probability := 3 / 10; confidence := low |};
    {| name := "Bronchitis"; probability := 5 / 10; confidence := medium |};
    {| name := "Pneumonia"; probability := 5 / 10; confidence := medium |} ].
Proof.
  rewrite scoredConditions_tests, ruleTests_silence.
  unfold conditionsOfTests, rule, condition, confidenceOf.
  assert (E5 : (zero + lit 0.3 + lit 0.2)%js = 5 / 10)
    by (ideal; unfold Q2R; simpl; lra).
  assert (E5' : (zero + lit 0.2 + lit 0.3)%js = 5 / 10)
    by (ideal; unfold Q2R; simpl; lra).
  assert (E3 : (zero + lit 0.3)%js = 3 / 10)
    by (ideal; unfold Q2R; simpl; lra).
  rewrite E5, E5', E3; decide_lt.
  assert (M5 : Math_min (5 / 10) (lit 0.95) = 5 / 10)
    by (ideal; apply Rmin_left; unfold Q2R; simpl; lra).
  assert (M3 : Math_min (3 / 10) (lit 0.95) = 3 / 10)
    by (ideal; apply Rmin_left; unfold Q2R; simpl; lra).
  now rewrite M5, M3.
Qed.

Lemma conditions_silence :
  map (fun c => (name c, probability c))
      (conditions (predict now (Ideal.silentRecord now features))) =
  [("COVID-19", 250 / 9); ("Bronchitis", 250 / 9);
   ("Pneumonia", 250 / 9); ("Asthma", 50 / 3)]%string.
Proof.
  unfold predict; rewrite scoredConditions_silence.
  unfold rankConditions, Array_sort, byProbability.
  do 3 (cbn [fold_right sort_insert probability]; decide_lt).
  do 2 (cbn [fold_left probability conditions map name confidence]; decide_lt).
  repeat (f_equal; try (ideal; unfold Q2R; simpl; field)).
Qed.

End IdealClassification.

Section IdealPipeline.
Local Open Scope R_scope.

(** The analysis of a silent waveform of [n] samples and [nf] frames. *)
Lemma analyze_zeros (now : Z) (n nf : nat) (sr : R) :
  numFrames (Z.of_nat n) = Z.of_nat nf ->
  exists features : list R,
    analyzeCoughCharacteristics now
      {| channelData := repeat 0 n; sampleRate := sr |}
    = Return {| duration := IZR (Z.of_nat n) / sr;
                rms := 0; zeroCrossingRate := 0; spectralCentroid := 0;
                mfccFeatures := features; timestamp := now |} /\
    detectWheezing features = false.
Proof.
  intros Hnf.
  destruct (extractMFCCFeatures_silence n nf sr Hnf)
    as [features [Hex [Hlen Hget]]].
  exists features; split.
  - unfold analyzeCoughCharacteristics.
    rewrite Hex; cbn [bind channelData sampleRate].
    rewrite calculateRMS_zeros, calculateZeroCrossingRate_zeros,
      calculateSpectralCentroid_zeros.
    unfold buffer_duration; cbn [channelData sampleRate].
    rewrite repeat_length; reflexivity.
  - exact (detectWheezing_silence features nf Hlen Hget).
Qed.

Lemma analyze_silence (now : Z) :
  exists features : list R,
    analyzeCoughCharacteristics now Ideal.silence
    = Return (Ideal.silentRecord now features) /\
    detectWheezing features = false.
Proof.
  assert (Hnf : numFrames (Z.of_nat (Z.to_nat 44100)) = Z.of_nat 83)
    by (rewrite Z2Nat.id by lia; reflexivity).
  destruct (analyze_zeros now (Z.to_nat 44100) 83 44100 Hnf)
    as [features [Hrecord Hw]].
  exists features; split; [|exact Hw].
  unfold Ideal.silence, Ideal.silentRecord.
  rewrite Hrecord, Z2Nat.id by lia.
  do 2 f_equal; field.
Qed.

End IdealPipeline.

(** C5 (amended): the pipeline turns one second of silence at 44100 Hz into
    the Analysis Record with duration 1, RMS 0, zero-crossing rate 0 and
    spectral centroid 0.  On it the rules that zero satisfies fire as well
    as the rules on the duration: the raw scores are 0.5 for COVID-19 (0.3
    duration, 0.2 RMS below 0.1), 0.3 for Asthma (centroid below 1500), 0.5
    for Bronchitis (0.2 duration, 0.3 centroid below 2000) and 0.5 for
    Pneumonia (0.2 duration, 0.3 zero-crossing rate below 0.08).  The
    dominant condition is COVID-19, the first of the three at 0.5, and the
    probabilities sum to 100. *)
Theorem silence_end_to_end :
  forall now : Z,
  exists features : list R,
    analyzeCoughCharacteristics now Ideal.silence
    = Return (Ideal.silentRecord now features) /\
    ruleTests (Ideal.silentRecord now features) =
      [true; true; false; false;  false; true; false;
       false; true; true;  false; true; true] /\
    rawScores (Ideal.silentRecord now features) =
      [("COVID-19", 5 / 10); ("Asthma", 3 / 10);
       ("Bronchitis", 5 / 10); ("Pneumonia", 5 / 10)]%string%R /\
    map (fun c => (name c, probability c))
        (conditions (predict now (Ideal.silentRecord now features))) =
      [("COVID-19", 250 / 9); ("Bronchitis", 250 / 9);
       ("Pneumonia", 250 / 9); ("Asthma", 50 / 3)]%string%R /\
    dominantCondition (predict now (Ideal.silentRecord now features))
    = "COVID-19"%string /\
    fold_right Rplus 0%R
      (map (@probability R)
           (conditions (predict now (Ideal.silentRecord now features))))
    = 100%R.
Proof.
  intros now.
  destruct (analyze_silence now) as [features [Hrecord Hw]].
  exists features.
  pose proof (conditions_silence now features Hw) as Hc.
  repeat apply conj.
  - exact Hrecord.
  - exact (ruleTests_silence now features Hw).
  - exact (rawScores_silence now features Hw).
  - exact Hc.
  - unfold predict, rankConditions in *; cbn [dominantCondition conditions] in *.
    destruct (if lt zero _ then _ else _) as [|c l]; [discriminate|].
    cbn [map] in Hc; injection Hc as Hname _ _.
    cbn [hd_error nameOr]; rewrite Hname; reflexivity.
  - assert (E : map (@probability R)
                  (conditions (predict now (Ideal.silentRecord now features)))
                = map snd
                    (map (fun c => (name c, probability c))
                       (conditions
                          (predict now (Ideal.silentRecord now features)))))
      by (rewrite map_map; reflexivity).
    rewrite E, Hc; simpl; lra.
Qed.

(** In binary64 the record of a second of silence is classified the same
    way, whenever the wheeze heuristic does not fire on its feature set. *)
Lemma silent_record_binary64 (now : Z) (features : list float) :
  detectWheezing features = false ->
  map (fun c => (name c, confidence c))
      (conditions
         (predict now
            {| duration := 1%float; rms := 0%float;
               zeroCrossingRate := 0%float; spectralCentroid := 0%float;
               mfccFeatures := features; timestamp := now |}))
  = [("COVID-19", medium); ("Bronchitis", medium); ("Pneumonia", medium);
     ("Asthma", low)]%string.
Proof.
  intros Hw.
  unfold predict, scoredConditions, asthmaScore; cbn [mfccFeatures].
  rewrite Hw; reflexivity.
Qed.

(** C5 (counterexample): the raw scores of the Analysis Record of one second
    of silence are not the contributions of the rules on the duration
    alone. *)
Lemma silence_scores_not_duration_only :
  exists record : CoughAnalysis R,
    analyzeCoughCharacteristics 0 Ideal.silence = Return record /\
    rawScores record <> durationOnlyScores record.
Proof.
  destruct (analyze_silence 0) as [features [Hrecord Hw]].
  exists (Ideal.silentRecord 0 features); split; [exact Hrecord|].
  rewrite (rawScores_silence 0 features Hw).
  unfold durationOnlyScores, rule, Ideal.silentRecord; cbn [duration].
  decide_lt; cbn [andb].
  intros E; injection E as E _; revert E.
  ideal; unfold Q2R; simpl; lra.
Qed.

(** * Further properties of the audio processor *)

(** ** Pre-emphasis *)

(** X1: [preEmphasis] keeps the length of the signal; its first sample is
    the stored first sample of the signal, and sample [i >= 1] is the
    stored [signal[i] - alpha * signal[i - 1]].  The empty signal gives the
    empty result. *)
Theorem preEmphasis_entries :
  forall (num : Type) (JN : JsNumber num) (signal : list num) (alpha : num),
    length (preEmphasis signal alpha) = length signal /\
    (forall i, (i < length signal)%nat ->
       get (preEmphasis signal alpha) i =
       fround (match i with
               | O => get signal 0
               | S j => sub (get signal i) (mul alpha (get signal j))
               end)).
Proof.
  intros num JN signal alpha.
  split; [apply preEmphasis_length|].
  unfold preEmphasis.
  set (N := length signal).
  set (r0 := set (repeat zero N) 0 (get signal 0)).
  destruct (Nat.eq_dec N 0) as [HN|HN]; [intros i Hi; lia|].
  assert (Inv :
    let r := for_loop 1 N
               (fun i result =>
                  set result i (sub (get signal i) (mul alpha (get signal (i - 1)))))
               r0 in
    length r = N /\
    forall i, (i < N)%nat ->
      get r i = fround (match i with
                        | O => get signal 0
                        | S j => sub (get signal i) (mul alpha (get signal j))
                        end)).
  { apply (for_loop_invariant
             (fun K r =>
                length r = N /\
                forall i, (i < K)%nat ->
                  get r i = fround (match i with
                                    | O => get signal 0
                                    | S j => sub (get signal i)
                                                 (mul alpha (get signal j))
                                    end))).
    - lia.
    - unfold r0; split; [now rewrite set_length, repeat_length|].
      intros i Hi; assert (i = O) by lia; subst i.
      apply get_set_eq; rewrite repeat_length; lia.
    - intros K r HK [Hlen Hget]; split; [now rewrite set_length|].
      intros i Hi; destruct (Nat.eq_dec i K) as [->|Hne].
      + rewrite get_set_eq by lia.
        destruct K as [|j]; [lia|].
        now replace (S j - 1)%nat with j by lia.
      + rewrite get_set_neq by lia; apply Hget; lia. }
  exact (proj2 Inv).
Qed.

(** ** Feature extraction and analysis *)

Section ExtractLayout.
Context {num : Type} {JN : JsNumber num} {JM : JsMath num}.

Lemma slice_length (a : list num) (start stop : nat) :
  (start <= stop <= length a)%nat -> length (slice a start stop) = (stop - start)%nat.
Proof.
  intros H; unfold slice.
  rewrite length_firstn, length_skipn; lia.
Qed.

Lemma numFrames_fits (N : Z) (f : nat) :
  (Z.of_nat f < numFrames N ->
   Z.of_nat f * 512 + 2048 <= N)%Z.
Proof.
  unfold numFrames, windowSize, hopSize; intros H.
  pose proof (Z.mul_div_le (N - 2048) 512 ltac:(lia)).
  lia.
Qed.

Lemma frameData_length (b : AudioBuffer num) (f : nat) :
  (Z.of_nat f < numFrames (Z.of_nat (length (channelData b))))%Z ->
  length (frameData b f) = 2048%nat.
Proof.
  intros Hf; apply numFrames_fits in Hf.
  unfold frameData; rewrite slice_length.
  - unfold windowSize; lia.
  - rewrite preEmphasis_length; unfold windowSize, hopSize; lia.
Qed.

(** The loop over the frames stores the coefficients of frame [f] at
    [13 f .. 13 f + 12]. *)
Lemma extract_loop_entries (b : AudioBuffer num) (nf : nat) (a : list num) :
  length a = (13 * nf)%nat ->
  let r :=
    for_loop 0 nf
      (fun frame mfccFeatures =>
         for_loop 0 13
           (fun i mfccFeatures =>
              set mfccFeatures (frame * 13 + i) (get (frameMFCC b frame) i))
           mfccFeatures)
      a in
  length r = (13 * nf)%nat /\
  forall f i, (f < nf)%nat -> (i < 13)%nat ->
    get r (13 * f + i) = fround (get (frameMFCC b f) i).
Proof.
  intros Ha.
  apply (for_loop_invariant
           (fun F r =>
              length r = (13 * nf)%nat /\
              forall f i, (f < F)%nat -> (i < 13)%nat ->
                get r (13 * f + i) = fround (get (frameMFCC b f) i))).
  - lia.
  - split; [exact Ha | intros; lia].
  - intros F r HF [Hlen Hget].
    destruct (block_store r (F * 13) 13 (fun i => get (frameMFCC b F) i))
      as [Hlen' [Hin Hout]]; [lia|].
    split; [now rewrite Hlen'|].
    intros f i Hf Hi; destruct (Nat.eq_dec f F) as [->|Hne].
    + replace (13 * F + i)%nat with (F * 13 + i)%nat by lia.
      now apply Hin.
    + rewrite Hout by lia; apply Hget; [lia | exact Hi].
Qed.

End ExtractLayout.

(** X2: on a waveform of at least 1536 samples [extractMFCCFeatures]
    returns [13 * numFrames] values, frame after frame: the value at
    [13 f + i] is the stored coefficient [i] of frame [f], and every frame is
    a full window of 2048 pre-emphasized samples starting at sample [512 f]
    (a shorter rest at the end of the waveform is not a frame). *)
Theorem extractMFCCFeatures_layout :
  forall (num : Type) (JN : JsNumber num) (JM : JsMath num)
         (b : AudioBuffer num),
    (1536 <= Z.of_nat (length (channelData b)))%Z ->
    exists features : list num,
      extractMFCCFeatures b = Return features /\
      Z.of_nat (length features)
      = (13 * numFrames (Z.of_nat (length (channelData b))))%Z /\
      forall f : nat,
        (Z.of_nat f < numFrames (Z.of_nat (length (channelData b))))%Z ->
        length (frameData b f) = 2048%nat /\
        forall i, (i < 13)%nat ->
          get features (13 * f + i) = fround (get (frameMFCC b f) i).
Proof.
  intros num JN JM b HN.
  set (N := Z.of_nat (length (channelData b))) in *.
  assert (Hnf : (0 <= numFrames N)%Z).
  { destruct (Z_lt_le_dec N 2048) as [Hs|Hl].
    - rewrite numFrames_zero; lia.
    - pose proof (numFrames_long N Hl); lia. }
  unfold extractMFCCFeatures.
  rewrite preEmphasis_length; fold N.
  unfold new_Float32Array.
  destruct (Z.ltb_spec (numFrames N * 13) 0) as [Hneg|_]; [lia|].
  cbn [bind]; eexists; split; [reflexivity|].
  set (nf := Z.to_nat (numFrames N)).
  destruct (extract_loop_entries b nf (repeat zero (Z.to_nat (numFrames N * 13))))
    as [Hlen Hget]; [rewrite repeat_length; lia|].
  split; [unfold frameMFCC, frameData in Hlen; rewrite Hlen; lia|].
  intros f Hf; split; [now apply frameData_length|].
  intros i Hi; apply (Hget f i); lia.
Qed.

Lemma extractMFCCFeatures_layout_witness :
  exists features : list R,
    extractMFCCFeatures Buffers.oneWindow = Return features /\
    Z.of_nat (length features)
    = (13 * numFrames (Z.of_nat (length (channelData Buffers.oneWindow))))%Z /\
    forall f : nat,
      (Z.of_nat f
       < numFrames (Z.of_nat (length (channelData Buffers.oneWindow))))%Z ->
      length (frameData Buffers.oneWindow f) = 2048%nat /\
      forall i, (i < 13)%nat ->
        get features (13 * f + i)
        = fround (get (frameMFCC Buffers.oneWindow f) i).
Proof.
  apply (extractMFCCFeatures_layout R real_number real_math Buffers.oneWindow).
  unfold Buffers.oneWindow; cbn [channelData]; rewrite repeat_length; lia.
Defined.

(** X3: [analyzeCoughCharacteristics] throws a RangeError on every waveform
    of fewer than 1536 samples, and on every other waveform it returns the
    Analysis Record of the three statistics, the duration, the feature set
    of [extractMFCCFeatures] and the time of the call. *)
Theorem analyzeCoughCharacteristics_outcome :
  forall (num : Type) (JN : JsNumber num) (JM : JsMath num)
         (now : Z) (b : AudioBuffer num),
    ((Z.of_nat (length (channelData b)) < 1536)%Z /\
     analyzeCoughCharacteristics now b = Throw "RangeError"%string) \/
    ((1536 <= Z.of_nat (length (channelData b)))%Z /\
     exists features : list num,
       extractMFCCFeatures b = Return features /\
       analyzeCoughCharacteristics now b =
       Return {| duration := buffer_duration b;
                 rms := calculateRMS (channelData b);
                 zeroCrossingRate := calculateZeroCrossingRate (channelData b);
                 spectralCentroid :=
                   calculateSpectralCentroid (channelData b) (sampleRate b);
                 mfccFeatures := features;
                 timestamp := now |}).
Proof.
  intros num JN JM now b.
  destruct (Z_lt_le_dec (Z.of_nat (length (channelData b))) 1536) as [Hs|Hl].
  - left; split; [exact Hs|].
    unfold analyzeCoughCharacteristics.
    now rewrite extractMFCCFeatures_throws.
  - right; split; [exact Hl|].
    assert (Hnf : (0 <= numFrames (Z.of_nat (length (channelData b))))%Z).
    { destruct (Z_lt_le_dec (Z.of_nat (length (channelData b))) 2048) as [H1|H2].
      - rewrite numFrames_zero; lia.
      - pose proof (numFrames_long _ H2); lia. }
    unfold analyzeCoughCharacteristics, extractMFCCFeatures.
    rewrite preEmphasis_length; unfold new_Float32Array.
    destruct (Z.ltb_spec
                (numFrames (Z.of_nat (length (channelData b))) * 13) 0)
      as [Hneg|_]; [lia|].
    cbn [bind]; eexists; split; reflexivity.
Qed.

(** ** Zero crossings *)

Section CrossingFacts.
Context {num : Type} {JN : JsNumber num}.

Lemma crossingCount_le (signal : list num) :
  (crossingCount signal <= length signal - 1)%nat.
Proof.
  unfold crossingCount.
  destruct (Nat.le_gt_cases 1 (length signal)) as [Hle|Hgt];
    [|rewrite for_loop_empty by lia; lia].
  apply (for_loop_invariant (fun K c => (c <= K - 1)%nat)).
  - exact Hle.
  - lia.
  - intros i c Hi Hc; destruct (negb _); lia.
Qed.

Lemma calculateZeroCrossingRate_count (signal : list num) :
  calculateZeroCrossingRate signal
  = div (of_nat (crossingCount signal)) (of_nat (length signal)).
Proof. reflexivity. Qed.

End CrossingFacts.

(** X5: the zero-crossing rate of a non-empty waveform is the number of
    sign changes over the number of samples; there are at most [N - 1] sign
    changes, so the rate lies in [[0, 1)]. *)
Theorem calculateZeroCrossingRate_range :
  forall x : list R,
    x <> [] ->
    (crossingCount x <= length x - 1)%nat /\
    calculateZeroCrossingRate x = (INR (crossingCount x) / INR (length x))%R /\
    (0 <= calculateZeroCrossingRate x < 1)%R.
Proof.
  intros x Hne.
  assert (HN : (1 <= length x)%nat) by (destruct x; [congruence | simpl; lia]).
  pose proof (crossingCount_le x) as Hc.
  assert (HNR : (0 < INR (length x))%R) by (apply lt_0_INR; lia).
  assert (E : calculateZeroCrossingRate x
              = (INR (crossingCount x) / INR (length x))%R).
  { rewrite calculateZeroCrossingRate_count; ideal.
    now rewrite <- !INR_IZR_INZ. }
  split; [exact Hc | split; [exact E|]].
  rewrite E.
  assert (Hc0 : (0 <= INR (crossingCount x))%R) by apply pos_INR.
  assert (Hc1 : (INR (crossingCount x) < INR (length x))%R)
    by (apply lt_INR; lia).
  split.
  - apply Rmult_le_pos; [lra | apply Rlt_le, Rinv_0_lt_compat; lra].
  - apply Rmult_lt_reg_r with (INR (length x)); [lra|].
    unfold Rdiv; rewrite Rmult_assoc, Rinv_l by lra; lra.
Qed.

Lemma calculateZeroCrossingRate_range_witness :
  (crossingCount Buffers.ramp <= length Buffers.ramp - 1)%nat /\
  calculateZeroCrossingRate Buffers.ramp
  = (INR (crossingCount Buffers.ramp) / INR (length Buffers.ramp))%R /\
  (0 <= calculateZeroCrossingRate Buffers.ramp < 1)%R.
Proof.
  apply (calculateZeroCrossingRate_range Buffers.ramp).
  discriminate.
Defined.

(** ** The Hamming window *)

Lemma mul_nan (x : float) : (x * PrimFloat.nan)%float = PrimFloat.nan.
Proof.
  rewrite <- (SF2Prim_Prim2SF (x * PrimFloat.nan)), mul_spec.
  destruct (Prim2SF x); reflexivity.
Qed.

Section WindowEntries.
Context {num : Type} {JN : JsNumber num} {JM : JsMath num}.

Lemma applyHammingWindow_entries (frame : list num) :
  length (applyHammingWindow frame) = length frame /\
  forall n, (n < length frame)%nat ->
    get (applyHammingWindow frame) n
    = fround (mul (get frame n) (Direct.hamming (length frame) n)).
Proof.
  unfold applyHammingWindow.
  destruct (block_store (repeat zero (length frame)) 0 (length frame)
              (fun n => mul (get frame n) (Direct.hamming (length frame) n)))
    as [Hlen [Hin _]]; [rewrite repeat_length; lia|].
  cbn [Nat.add] in Hlen, Hin.
  rewrite repeat_length in Hlen.
  split; [exact Hlen | exact Hin].
Qed.

End WindowEntries.

(** X6: the Hamming window keeps the length of a frame, and sample [n] of
    the windowed frame is the product of sample [n] and the weight
    [0.54 - 0.46 cos(2 pi n / (N - 1))], rounded to single precision when it
    is stored.  For a frame of one sample the quotient in the weight is 0/0:
    in binary64, the window of a one-sample frame is NaN whatever the sample
    is, given that the cosine of NaN is NaN. *)
Theorem applyHammingWindow_weights :
  (forall (num : Type) (JN : JsNumber num) (JM : JsMath num) (frame : list num),
     length (applyHammingWindow frame) = length frame /\
     forall n, (n < length frame)%nat ->
       get (applyHammingWindow frame) n
       = fround (mul (get frame n) (Direct.hamming (length frame) n))) /\
  (forall (cos sin log : float -> float) (x : float),
     cos PrimFloat.nan = PrimFloat.nan ->
     applyHammingWindow (JM := float_math cos sin log) [x] = [PrimFloat.nan]).
Proof.
  split; [intros; apply applyHammingWindow_entries|].
  intros cos sin log x Hnan.
  destruct (applyHammingWindow_entries (JM := float_math cos sin log) [x])
    as [Hlen Hget].
  specialize (Hget O ltac:(simpl; lia)).
  destruct (applyHammingWindow [x]) as [|w [|? ?]]; try discriminate.
  unfold get in Hget; cbn [nth length] in Hget; rewrite Hget.
  unfold Direct.hamming.
  cbn [Math_cos float_math].
  replace (div (mul (mul (lit 2) Math_PI) (of_nat 0)) (of_int (Z.of_nat 1 - 1)))
    with PrimFloat.nan by (vm_compute; reflexivity).
  rewrite Hnan.
  replace (sub (lit 0.54) (mul (lit 0.46) PrimFloat.nan)) with PrimFloat.nan
    by (vm_compute; reflexivity).
  cbn [mul fround float_number]; rewrite mul_nan; reflexivity.
Qed.

Lemma applyHammingWindow_weights_witness :
  applyHammingWindow (JM := Host.math) [1%float] = [PrimFloat.nan].
Proof.
  apply (proj2 applyHammingWindow_weights Host.cos Host.sin Host.log 1%float).
  reflexivity.
Defined.

(** ** The cepstral coefficients *)

Section RoundedCepstrum.
Context {num : Type} {JN : JsNumber num} {JM : JsMath num}.

Lemma powerSpectrumOf_entries (x : list num) :
  length (powerSpectrumOf (computeFFT x)) = length x /\
  forall j, (j < length x)%nat ->
    get (powerSpectrumOf (computeFFT x)) j = Direct.power x j.
Proof.
  destruct (computeFFT_entries x) as [Hfl Hfe].
  assert (Hhalf : (length (computeFFT x) / 2 = length x)%nat)
    by (rewrite Hfl, Nat.mul_comm, Nat.div_mul; lia).
  unfold powerSpectrumOf; rewrite repeat_length, Hhalf.
  destruct (block_store (repeat zero (length x)) 0 (length x)
              (fun i =>
                 add (mul (get (computeFFT x) (i * 2))
                          (get (computeFFT x) (i * 2)))
                     (mul (get (computeFFT x) (i * 2 + 1))
                          (get (computeFFT x) (i * 2 + 1)))))
    as [Hlen [Hin _]]; [rewrite repeat_length; lia|].
  cbn [Nat.add] in Hlen, Hin.
  rewrite repeat_length in Hlen.
  split; [exact Hlen|].
  intros j Hj; rewrite (Hin j Hj).
  destruct (Hfe j Hj) as [Hre Him].
  rewrite (fourierSums_accumulate x j) in Hre, Him; cbn [fst snd] in Hre, Him.
  replace (j * 2)%nat with (2 * j)%nat by lia.
  rewrite Hre, Him; reflexivity.
Qed.

Lemma cepstralSum_accumulate (x : list num) (i : nat) :
  cepstralSum (powerSpectrumOf (computeFFT x)) i = Direct.cepstrum x i.
Proof.
  destruct (powerSpectrumOf_entries x) as [Hlen Hget].
  unfold cepstralSum, Direct.cepstrum; rewrite Hlen.
  set (ps := powerSpectrumOf (computeFFT x)) in *.
  rewrite (for_loop_accumulate
             (fun j =>
                mul (Math_log (add (get ps j) (lit 1e-10)))
                    (Math_cos (div (mul (mul Math_PI (of_nat i))
                                        (add (of_nat j) (lit 0.5)))
                                   (of_nat (length x)))))).
  apply accumulate_ext; intros j Hj; now rewrite Hget.
Qed.

End RoundedCepstrum.

(** X7: [computeMFCC] returns 13 coefficients for a frame [x] of any
    length [N], and coefficient [i] is the sum over the [N] bins [j] of
    [log(power[j] + 1e-10) cos(pi i (j + 0.5) / N)] as the program's
    arithmetic gives it, rounded to single precision when it is stored;
    [power[j]] is the stored sum of the squares of the two stored sums of
    bin [j] of the transform. *)
Theorem computeMFCC_is_cepstral_projection :
  forall (num : Type) (JN : JsNumber num) (JM : JsMath num)
         (x : list num) (sr : num),
    length (computeMFCC x sr) = 13%nat /\
    forall i, (i < 13)%nat ->
      get (computeMFCC x sr) i = fround (Direct.cepstrum x i).
Proof.
  intros num JN JM x sr.
  unfold computeMFCC.
  destruct (block_store (repeat zero 13) 0 13
              (fun i => cepstralSum (powerSpectrumOf (computeFFT x)) i))
    as [Hlen [Hin _]]; [rewrite repeat_length; lia|].
  cbn [Nat.add] in Hlen, Hin.
  split; [exact Hlen|].
  intros i Hi; rewrite (Hin i Hi).
  now rewrite cepstralSum_accumulate.
Qed.

(** * Further properties of the classifier *)

(** A property of the outcomes of the rule tests that holds for each of the
    8192 lists of outcomes holds for the tests of every analysis record. *)
Lemma by_rule_outcomes {num : Type} {JN : JsNumber num}
    (check : list bool -> bool) :
  forallb check (bool_lists 13) = true ->
  forall a : CoughAnalysis num, check (ruleTests a) = true.
Proof.
  intros H a; rewrite forallb_forall in H.
  apply H, bool_lists_complete, ruleTests_length.
Qed.

Lemma ranking_check :
  forallb
    (fun tests =>
       (fun raw : list (ConditionProbability float) =>
        (fun r : CoughClassification float =>
          match conditions r with
          | [c1; c2; c3; c4] =>
              PrimFloat.leb (probability c2) (probability c1)
              && PrimFloat.leb (probability c3) (probability c2)
              && PrimFloat.leb (probability c4) (probability c3)
              && String.eqb (dominantCondition r) (name c1)
              && match overallConfidence r, confidence c1 with
                 | low, low | medium, medium | high, high => true
                 | _, _ => false
                 end
          | _ => false
          end)
         (rankConditions 0 raw))
         (conditionsOfTests tests))
    (bool_lists 13) = true.
Proof. vm_compute; reflexivity. Qed.

(** X10: every result lists the four conditions, each once, in descending
    order of probability; the dominant condition and the overall confidence
    are the name and the band of the first, most probable one. *)
Theorem predict_ranks_by_probability :
  forall (now : Z) (a : CoughAnalysis float),
    Permutation (map (@name float) (conditions (predict now a)))
                ["COVID-19"; "Asthma"; "Bronchitis"; "Pneumonia"]%string /\
    exists c1 c2 c3 c4 : ConditionProbability float,
      conditions (predict now a) = [c1; c2; c3; c4] /\
      (probability c2 <=? probability c1)%float = true /\
      (probability c3 <=? probability c2)%float = true /\
      (probability c4 <=? probability c3)%float = true /\
      dominantCondition (predict now a) = name c1 /\
      overallConfidence (predict now a) = confidence c1.
Proof.
  intros now a; split.
  - pose proof (rankConditions_bands now (scoredConditions a)) as P.
    apply (Permutation_map fst) in P.
    rewrite !map_map in P; cbn [fst] in P.
    exact P.
  - pose proof (by_rule_tests _ ranking_check a) as C; cbv beta in C.
    change (conditions (predict now a))
      with (conditions (rankConditions 0 (scoredConditions a))).
    change (dominantCondition (predict now a))
      with (dominantCondition (rankConditions 0 (scoredConditions a))).
    change (overallConfidence (predict now a))
      with (overallConfidence (rankConditions 0 (scoredConditions a))).
    destruct (conditions (rankConditions 0 (scoredConditions a)))
      as [|c1 [|c2 [|c3 [|c4 [|c5 l]]]]]; try discriminate.
    exists c1, c2, c3, c4.
    repeat (apply andb_prop in C; destruct C as [C ?]).
    repeat split; try assumption.
    + now apply String.eqb_eq.
    + destruct (overallConfidence _), (confidence c1);
        first [reflexivity | discriminate].
Qed.

Lemma bounds_check :
  forallb
    (fun tests =>
       (fun raw : list (ConditionProbability float) =>
          forallb (fun c => PrimFloat.leb 0 (probability c)
                            && PrimFloat.leb (probability c) 0.95) raw
          && forallb (fun c => PrimFloat.leb 0 (probability c)
                               && PrimFloat.leb (probability c) 100)
                     (conditions (rankConditions 0 raw)))
         (conditionsOfTests tests))
    (bool_lists 13) = true.
Proof. vm_compute; reflexivity. Qed.

(** X11: every raw score, capped, lies between 0 and 0.95, and every
    probability of a result lies between 0 and 100. *)
Theorem scores_and_probabilities_bounded :
  forall (now : Z) (a : CoughAnalysis float),
    Forall (fun c => (0 <=? probability c)%float = true /\
                     (probability c <=? 0.95)%float = true)
           (scoredConditions a) /\
    Forall (fun c => (0 <=? probability c)%float = true /\
                     (probability c <=? 100)%float = true)
           (conditions (predict now a)).
Proof.
  intros now a.
  pose proof (by_rule_tests _ bounds_check a) as C; cbv beta in C.
  apply andb_prop in C; destruct C as [C1 C2].
  rewrite forallb_forall in C1, C2.
  split; apply Forall_forall; intros c Hc.
  - now apply andb_prop, C1.
  - now apply andb_prop, C2.
Qed.

Lemma highest_band_check :
  forallb
    (fun tests =>
       (fun raw : list (ConditionProbability float) =>
        (fun r : CoughClassification float =>
          forallb
            (fun c => match confidence c, overallConfidence r with
                      | low, _ | medium, (medium | high) | high, high => true
                      | _, _ => false
                      end)
            (conditions r))
         (rankConditions 0 raw))
         (conditionsOfTests tests))
    (bool_lists 13) = true.
Proof. vm_compute; reflexivity. Qed.

(** X12: no condition of a result has a higher confidence band than the
    overall confidence. *)
Theorem overallConfidence_is_highest :
  forall (now : Z) (a : CoughAnalysis float),
    Forall (fun c => match confidence c, overallConfidence (predict now a) with
                     | low, _ | medium, (medium | high) | high, high => True
                     | _, _ => False
                     end)
           (conditions (predict now a)).
Proof.
  intros now a.
  pose proof (by_rule_tests _ highest_band_check a) as C; cbv beta in C.
  rewrite forallb_forall in C.
  apply Forall_forall; intros c Hc.
  change (overallConfidence (predict now a))
    with (overallConfidence (rankConditions 0 (scoredConditions a))).
  specialize (C c Hc).
  set (o := overallConfidence (rankConditions 0 (scoredConditions a))) in *.
  destruct (confidence c), o; first [exact I | discriminate].
Qed.

(** ** A duration that is a number *)

Lemma not_nan_compare (d : float) :
  PrimFloat.is_nan d = false -> Prim2SF d <> S754_nan.
Proof.
  unfold PrimFloat.is_nan; rewrite eqb_spec; intros H E.
  rewrite E in H; discriminate.
Qed.

(** One of the rules [duration > 0.8] and [duration < 1.5] fires for every
    duration that is not NaN. *)
Lemma duration_rule_fires (d : float) :
  PrimFloat.is_nan d = false ->
  (0.8 <? d)%float || (d <? 1.5)%float = true.
Proof.
  intros Hnan; apply not_nan_compare in Hnan.
  rewrite !ltb_spec.
  change (Prim2SF 0.8) with (S754_finite false 7205759403792794 (-53)).
  change (Prim2SF 1.5) with (S754_finite false 6755399441055744 (-52)).
  destruct (Prim2SF d) as [s|s| |s m e]; try congruence.
  - destruct s; reflexivity.
  - destruct s; reflexivity.
  - destruct s; [reflexivity|].
    unfold SFltb, SFcompare.
    destruct (Z.compare_spec (-53) e) as [He|He|He];
      destruct (Z.compare_spec e (-52)) as [He'|He'|He'];
      first [reflexivity | lia].
Qed.

Lemma duration_rule_check :
  forallb
    (fun tests =>
       implb (nth 8 tests false || nth 11 tests false)
             (existsb (fun c : ConditionProbability float =>
                         negb (PrimFloat.eqb (probability c) 0))
                      (conditionsOfTests tests)))
    (bool_lists 13) = true.
Proof. vm_compute; reflexivity. Qed.

(** X13: when the duration of the Analysis Record is not NaN at least one
    raw score is nonzero, so the probabilities of the result are normalized:
    they sum to 100 within a relative tolerance of 1e-6. *)
Theorem number_duration_normalizes :
  forall (now : Z) (a : CoughAnalysis float),
    PrimFloat.is_nan (duration a) = false ->
    Exists (fun c => PrimFloat.eqb (probability c) 0 = false)
           (scoredConditions a) /\
    exists s : Q,
      Exact.sum (map (@probability float) (conditions (predict now a))) = Some s /\
      Exact.within s 100 1e-6.
Proof.
  intros now a Hd.
  pose proof (duration_rule_fires (duration a) Hd) as Hrule.
  pose proof (by_rule_outcomes _ duration_rule_check a) as C; cbv beta in C.
  rewrite <- scoredConditions_tests in C.
  change (nth 8 (ruleTests a) false) with (lt (lit 0.8) (duration a)) in C.
  change (nth 11 (ruleTests a) false) with (lt (duration a) (lit 1.5)) in C.
  change (orb (lt (lit 0.8) (duration a)) (lt (duration a) (lit 1.5)))
    with ((0.8 <? duration a)%float || (duration a <? 1.5)%float) in C.
  rewrite Hrule in C; cbn [implb] in C.
  split.
  - apply existsb_exists in C; destruct C as [c [Hc Hz]].
    apply Exists_exists; exists c; split; [exact Hc|].
    now apply negb_true_iff.
  - pose proof (by_rule_tests _ normalization_check a) as Cn; cbv beta in Cn.
    rewrite C in Cn; cbn [implb] in Cn.
    apply andb_prop in Cn; destruct Cn as [_ Hs].
    change (conditions (predict now a))
      with (conditions (rankConditions 0 (scoredConditions a))).
    destruct (Exact.sum _) as [s|]; [|discriminate].
    exists s; split; [reflexivity|].
    unfold Exact.within_bool in Hs; now apply Qle_bool_iff in Hs.
Qed.

Lemma number_duration_normalizes_witness :
  Exists (fun c => PrimFloat.eqb (probability c) 0 = false)
         (scoredConditions Records.longCough) /\
  exists s : Q,
    Exact.sum (map (@probability float)
                   (conditions (predict 0 Records.longCough))) = Some s /\
    Exact.within s 100 1e-6.
Proof.
  apply (number_duration_normalizes 0 Records.longCough).
  reflexivity.
Defined.

(** ** The wheeze heuristic on any feature set *)

Section WheezeAnyLength.
Context {num : Type} {JN : JsNumber num}.
Variable features : list num.

Lemma wheezingPattern_in_range (i : nat) :
  wheezingPattern features i = true ->
  (i + 3 < length features)%nat /\
  lt (lit 0.5) (get features (i + 2)) = true /\
  lt (get features (i + 3)) (lit (-0.3)) = true.
Proof.
  unfold wheezingPattern, get_opt, get; intros H.
  destruct (nth_error features (i + 2)) as [c2|] eqn:E2; [|discriminate].
  apply andb_prop in H; destruct H as [H2 H3].
  destruct (nth_error features (i + 3)) as [c3|] eqn:E3; [|discriminate].
  assert (Hlen : (i + 3 < length features)%nat)
    by (apply nth_error_Some; congruence).
  rewrite (nth_error_nth features (i + 2) NaN E2),
          (nth_error_nth features (i + 3) NaN E3).
  auto.
Qed.

Lemma wheezingLoop_counts_matches (fuel : nat) :
  forall k count,
    (count < wheezingLoop features fuel (13 * k) count)%nat ->
    exists k', wheezingPattern features (13 * k') = true.
Proof.
  induction fuel as [|fuel IH]; intros k count H; cbn [wheezingLoop] in H.
  - lia.
  - destruct (13 * k <? length features)%nat; [|lia].
    replace (13 * k + 13)%nat with (13 * S k)%nat in H by lia.
    destruct (wheezingPattern features (13 * k)) eqn:E; [now exists k|].
    now apply (IH (S k) count).
Qed.

End WheezeAnyLength.

(** X14: on a feature set of any length the wheeze heuristic fires only if
    some stride of 13 starts a frame whose coefficient 2 exceeds 0.5 and
    whose coefficient 3 is below -0.3, both read inside the feature set; it
    does not fire on an empty feature set or on one of fewer than four
    values. *)
Theorem detectWheezing_needs_a_match :
  forall (num : Type) (JN : JsNumber num) (features : list num),
    detectWheezing features = true ->
    exists k : nat,
      (13 * k + 3 < length features)%nat /\
      frameMatches features k = true.
Proof.
  intros num JN features H.
  unfold detectWheezing, Qlt_bool in H.
  rewrite negb_true_iff, <- not_true_iff_false, Qle_bool_iff in H.
  assert (Hpos : (0 < wheezingLoop features (length features) 0 0)%nat).
  { destruct (wheezingLoop features (length features) 0 0) as [|c]; [|lia].
    exfalso; apply H.
    unfold Qle, Qdiv, Qmult, Qinv, inject_Z; cbn [Qnum Qden]; lia. }
  change 0%nat with (13 * 0)%nat in Hpos at 2.
  destruct (wheezingLoop_counts_matches features _ 0 0 Hpos) as [k Hk].
  destruct (wheezingPattern_in_range features _ Hk) as [Hlen [H2 H3]].
  exists k; split; [exact Hlen|].
  unfold frameMatches; now rewrite H2, H3.
Qed.

Lemma detectWheezing_needs_a_match_witness :
  exists k : nat,
    (13 * k + 3 < length Records.oneFrame)%nat /\
    frameMatches Records.oneFrame k = true.
Proof.
  apply (detectWheezing_needs_a_match float float_number Records.oneFrame).
  reflexivity.
Defined.

(** ** The classifier object *)

Section ClassifierObject.
Context {num : Type} {JN : JsNumber num}.

Lemma batchClassify_loaded (clock : nat -> Z)
    (analyses done : list (CoughAnalysis num))
    (results : list (CoughClassification num)) :
  length results = length done ->
  (forall i a, nth_error done i = Some a ->
     nth_error results i = Some (predict (clock i) a)) ->
  exists results' : list (CoughClassification num),
    fold_left
      (fun acc analysis =>
         results <- acc ;;
         classification <-
           classifyCough new_CoughClassifier (clock (length results)) analysis ;;
         Return (results ++ [classification]))
      analyses (Return results)
    = Return results' /\
    length results' = length (done ++ analyses) /\
    forall i a, nth_error (done ++ analyses) i = Some a ->
      nth_error results' i = Some (predict (clock i) a).
Proof.
  revert done results; induction analyses as [|a analyses IH];
    intros done results Hlen Hnth.
  - exists results; rewrite app_nil_r; auto.
  - cbn [fold_left bind classifyCough new_CoughClassifier loadModel isLoaded
         model CoughModel_predict].
    destruct (IH (done ++ [a]) (results ++ [predict (clock (length results)) a]))
      as [results' [Hrun [Hlen' Hnth']]].
    + rewrite !length_app; simpl; lia.
    + intros i b Hb.
      destruct (Nat.lt_ge_cases i (length done)) as [Hlt|Hge].
      * rewrite nth_error_app1 in Hb by exact Hlt.
        rewrite nth_error_app1 by lia; now apply Hnth.
      * rewrite nth_error_app2 in Hb by exact Hge.
        rewrite nth_error_app2 by lia.
        rewrite Hlen.
        destruct (i - length done)%nat as [|j] eqn:Ej; [|destruct j; discriminate].
        cbn in Hb |- *; injection Hb as <-.
        do 3 f_equal; lia.
    + exists results'; rewrite <- app_assoc in Hlen', Hnth'.
      auto.
Qed.

End ClassifierObject.

(** X15: a classifier that has been constructed does not throw "Model not
    loaded": [classifyCough] returns the prediction of the rule-based model,
    and [batchClassify] returns one result per Analysis Record, in the order
    of the input, each the prediction for its record. *)
Theorem constructed_classifier_classifies :
  forall (num : Type) (JN : JsNumber num) (clock : nat -> Z)
         (analyses : list (CoughAnalysis num)),
    (forall now a, classifyCough new_CoughClassifier now a = Return (predict now a)) /\
    exists results : list (CoughClassification num),
      batchClassify new_CoughClassifier clock analyses = Return results /\
      length results = length analyses /\
      forall i a, nth_error analyses i = Some a ->
        nth_error results i = Some (predict (clock i) a).
Proof.
  intros num JN clock analyses; split; [reflexivity|].
  destruct (batchClassify_loaded clock analyses [] [])
    as [results H]; [reflexivity | intros [|i] a Ha; discriminate |].
  exists results; exact H.
Qed.

(** X16: a classifier whose model is not loaded throws the error of
    [classifyCough] on every record, and [batchClassify] throws it on every
    non-empty batch and returns no results; on the empty batch it returns
    the empty list. *)
Theorem unloaded_classifier_throws :
  forall (num : Type) (JN : JsNumber num) (this : CoughClassifier)
         (clock : nat -> Z) (a : CoughAnalysis num)
         (analyses : list (CoughAnalysis num)),
    isLoaded this = false \/ model this = None ->
    classifyCough this (clock O) a = Throw "Error"%string /\
    batchClassify this clock (a :: analyses) = Throw "Error"%string /\
    batchClassify this clock [] = Return [].
Proof.
  intros num JN this clock a analyses H.
  assert (E : forall now b, classifyCough this now b = Throw "Error"%string).
  { intros now b; unfold classifyCough.
    destruct H as [-> | ->]; [reflexivity | now destruct (isLoaded this)]. }
  split; [apply E | split; [|reflexivity]].
  unfold batchClassify; cbn [fold_left bind]; rewrite E; cbn [bind].
  induction analyses as [|b l IH]; [reflexivity | exact IH].
Qed.

Lemma unloaded_classifier_throws_witness :
  classifyCough {| model := None; isLoaded := false |} 0 Records.longCough
  = Throw "Error"%string /\
  batchClassify {| model := None; isLoaded := false |} (fun _ => 0%Z)
    [Records.longCough; Records.lowCough] = Throw "Error"%string /\
  batchClassify {| model := None; isLoaded := false |} (fun _ => 0%Z)
    ([] : list (CoughAnalysis float)) = Return [].
Proof.
  apply (unloaded_classifier_throws float float_number
           {| model := None; isLoaded := false |} (fun _ => 0%Z)
           Records.longCough [Records.lowCough]).
  left; reflexivity.
Defined.

(** ** Silence of any length *)

(** X17: a non-empty waveform of zeros, of any length and at any sample
    rate, has RMS 0, zero-crossing rate 0 and spectral centroid 0, and its
    pre-emphasis and its transform are zeros again. *)
Theorem statistics_of_silence :
  forall (n : nat) (sr : R),
    (1 <= n)%nat ->
    calculateRMS (repeat 0%R n) = 0%R /\
    calculateZeroCrossingRate (repeat 0%R n) = 0%R /\
    calculateSpectralCentroid (repeat 0%R n) sr = 0%R /\
    preEmphasis (repeat 0%R n) (lit 0.97) = repeat 0%R n /\
    computeFFT (repeat 0%R n) = repeat 0%R (2 * n).
Proof.
  intros n sr _.
  rewrite calculateRMS_zeros, calculateZeroCrossingRate_zeros,
    calculateSpectralCentroid_zeros, preEmphasis_zeros, computeFFT_zeros.
  now rewrite (Nat.mul_comm n 2).
Qed.

Lemma statistics_of_silence_witness :
  calculateRMS (repeat 0%R 3) = 0%R /\
  calculateZeroCrossingRate (repeat 0%R 3) = 0%R /\
  calculateSpectralCentroid (repeat 0%R 3) 44100%R = 0%R /\
  preEmphasis (repeat 0%R 3) (lit 0.97) = repeat 0%R 3 /\
  computeFFT (repeat 0%R 3) = repeat 0%R (2 * 3).
Proof.
  apply (statistics_of_silence 3 44100%R); lia.
Defined.

(** * Properties of the callers *)

(** ** Splitting a dataset *)

Section SliceFacts.
Context {A : Type}.

Lemma relativeIndex_le (len : nat) (i : IntegerOrInfinity) :
  (JsArray.relativeIndex len i <= len)%nat.
Proof.
  unfold JsArray.relativeIndex; destruct i as [z| |]; [|lia..].
  destruct (Z.ltb_spec z 0); lia.
Qed.

(** The two slices of [splitDataset] put the array together again, at
    whatever position it is cut. *)
Lemma slice_cut (a : list A) (i : IntegerOrInfinity) :
  JsArray.slice a (Integer 0) (Some i) ++ JsArray.slice a i None = a.
Proof.
  unfold JsArray.slice.
  pose proof (relativeIndex_le (length a) i) as Hk.
  set (k := JsArray.relativeIndex (length a) i) in *.
  replace (JsArray.relativeIndex (length a) (Integer 0)) with O
    by (unfold JsArray.relativeIndex; cbn [Z.ltb Z.compare]; lia).
  rewrite Nat.sub_0_r; cbn [skipn].
  rewrite (firstn_all2 (skipn k a)) by (rewrite length_skipn; lia).
  apply firstn_skipn.
Qed.

End SliceFacts.

(** X18: [splitDataset] loses and duplicates no sample, whatever the
    ratio (also a negative one, one above 1, or NaN): the training part
    followed by the validation part is the shuffled list of the samples of
    the dataset, and both are empty for an unknown dataset. *)
Theorem splitDataset_partitions :
  forall (shuffle : list (CoughSample float) -> list (CoughSample float))
         (datasets : list (string * CoughDataset float)) (datasetId : string)
         (trainRatio : option float),
    (forall l, Permutation (shuffle l) l) ->
    let split := splitDataset shuffle datasets datasetId trainRatio in
    (train split ++ validation split
     = shuffle (getSamples datasets datasetId None)) /\
    Permutation (train split ++ validation split)
                (getSamples datasets datasetId None) /\
    (length (train split) + length (validation split)
     = length (getSamples datasets datasetId None))%nat /\
    (Map_get datasets datasetId = None ->
     train split = [] /\ validation split = []).
Proof.
  intros shuffle datasets datasetId trainRatio Hperm split.
  assert (E : train split ++ validation split
              = shuffle (getSamples datasets datasetId None))
    by (unfold split, splitDataset; cbn [train validation]; apply slice_cut).
  split; [exact E | split; [|split]].
  - rewrite E; apply Hperm.
  - rewrite <- length_app, E; apply Permutation_length, Hperm.
  - intros Hnone.
    assert (Hs : getSamples datasets datasetId None = [])
      by (unfold getSamples; now rewrite Hnone).
    rewrite Hs in E.
    assert (Hnil : shuffle [] = [])
      by (apply Permutation_nil; symmetry; apply Hperm).
    rewrite Hnil in E; now apply app_eq_nil in E.
Qed.

Lemma splitDataset_partitions_witness :
  let split :=
    splitDataset (@rev (CoughSample float)) Datasets.library "coughs" None in
  ((train split ++ validation split
    = rev (getSamples Datasets.library "coughs" None)) /\
   Permutation (train split ++ validation split)
               (getSamples Datasets.library "coughs" None) /\
   (length (train split) + length (validation split)
    = length (getSamples Datasets.library "coughs" None))%nat /\
   (Map_get Datasets.library "coughs" = None ->
    train split = [] /\ validation split = [])) /\
  map (@filename float) (train split) = ["e"; "d"; "c"; "b"]%string /\
  map (@filename float) (validation split) = ["a"%string].
Proof.
  split.
  - apply (splitDataset_partitions (@rev (CoughSample float)) Datasets.library
             "coughs" None).
    intros l; symmetry; apply Permutation_rev.
  - split; reflexivity.
Defined.

(** ** Loading local files *)

Section LabelFacts.

Lemma extractLabelFromFilename_labels (filename : string) :
  In (extractLabelFromFilename filename) Files.labels.
Proof.
  unfold extractLabelFromFilename, Files.labels.
  repeat match goal with
         | |- context [if ?b then _ else _] => destruct b
         end; simpl; tauto.
Qed.

Lemma distinct_In (a : list string) (x : string) :
  In x (JsArray.distinct a) <-> In x a.
Proof.
  induction a as [|y r IH]; [reflexivity|].
  cbn [JsArray.distinct In]; rewrite filter_In, IH.
  split.
  - intros [H|[H _]]; auto.
  - intros [H|H]; [now left|].
    destruct (String.eqb_spec y x) as [E|E]; [now left|].
    right; split; [exact H | reflexivity].
Qed.

Lemma distinct_NoDup (a : list string) : NoDup (JsArray.distinct a).
Proof.
  induction a as [|y r IH]; [constructor|].
  cbn [JsArray.distinct]; constructor.
  - rewrite filter_In; intros [_ H].
    now rewrite String.eqb_refl in H.
  - now apply NoDup_filter.
Qed.

End LabelFacts.

Section LoadFacts.
Context {num : Type} {JN : JsNumber num} {JM : JsMath num}.
Variable audioProcessor : AudioProcessor (num := num).

(** A file is sound when it decodes to a buffer of at least 1536 samples. *)
Let sound (file : File) : Prop :=
  exists audioBuffer : AudioBuffer num,
    processAudioBlob audioProcessor (file_blob file) = Return audioBuffer /\
    (1536 <= Z.of_nat (length (channelData audioBuffer)))%Z.

Lemma processAudioFile_sound (reads : Reads) (file : File) :
  sound file ->
  exists sample : CoughSample num,
    processAudioFile audioProcessor reads file = Return sample /\
    filename sample = file_name file /\
    label sample = extractLabelFromFilename (file_name file) /\
    processed (sample_metadata sample) = true /\
    fileSize (sample_metadata sample) = blob_size (file_blob file).
Proof.
  intros [audioBuffer [Hdecode Hlen]]; unfold processAudioFile.
  rewrite Hdecode; cbn [bind].
  destruct (analyzeCoughCharacteristics_outcome num JN JM
              (analysisNow reads) audioBuffer)
    as [[Hshort _] | [_ [features [_ Hrecord]]]]; [lia|].
  rewrite Hrecord; cbn [bind].
  eexists; split; [reflexivity|]; cbn; auto.
Qed.

Lemma collectSamples_sound (reads : nat -> Reads) (files : list File) :
  (forall file, In file files -> Files.isAudio file = true -> sound file) ->
  forall (i : nat) (samples : list (CoughSample num)),
  exists added : list (CoughSample num),
    collectSamples audioProcessor reads i files samples
    = Return (samples ++ added) /\
    map (@filename num) added = map file_name (filter Files.isAudio files) /\
    Forall (fun s => label s = extractLabelFromFilename (filename s) /\
                     processed (sample_metadata s) = true) added.
Proof.
  induction files as [|file rest IH]; intros Hsound i samples.
  - exists []; rewrite app_nil_r; repeat split; constructor.
  - cbn [collectSamples filter].
    fold (Files.isAudio file).
    destruct (Files.isAudio file) eqn:Haudio.
    + destruct (processAudioFile_sound (reads i) file)
        as [sample [Hrun [Hname [Hlabel [Hproc _]]]]];
        [apply Hsound; [now left | exact Haudio]|].
      rewrite Hrun; cbn [bind].
      destruct (IH (fun f Hf => Hsound f (or_intror Hf)) (S i)
                   (samples ++ [sample]))
        as [added [Hrest [Hnames Hall]]].
      exists (sample :: added); rewrite Hrest, <- app_assoc.
      repeat split.
      * cbn [map]; now rewrite Hname, Hnames.
      * constructor; [|exact Hall].
        now rewrite Hlabel, Hname.
    + apply IH; intros f Hf; apply Hsound; now right.
Qed.

End LoadFacts.

(** X19: when every audio file of the list decodes to a buffer of at least
    1536 samples, [loadLocalDataset] returns a dataset with one sample per
    file whose type starts with "audio/", in the order of the files and under
    their names; the other files are skipped.  Every sample is labelled from
    its file name and marked processed; [totalSamples] counts the samples,
    and [conditions] lists the labels that occur, each once, all among the
    six labels of [extractLabelFromFilename]. *)
Theorem loadLocalDataset_samples :
  forall (num : Type) (JN : JsNumber num) (JM : JsMath num)
         (audioProcessor : AudioProcessor (num := num))
         (idNow : Z) (reads : nat -> Reads) (createdNow updatedNow : Z)
         (files : list File),
    (forall file, In file files -> Files.isAudio file = true ->
       exists audioBuffer : AudioBuffer num,
         processAudioBlob audioProcessor (file_blob file) = Return audioBuffer /\
         (1536 <= Z.of_nat (length (channelData audioBuffer)))%Z) ->
    exists dataset : CoughDataset num,
      loadLocalDataset audioProcessor idNow reads createdNow updatedNow files
      = Return dataset /\
      map (@filename num) (samples dataset)
      = map file_name (filter Files.isAudio files) /\
      Forall (fun s => label s = extractLabelFromFilename (filename s) /\
                       processed (sample_metadata s) = true)
             (samples dataset) /\
      totalSamples (metadata dataset) = length (filter Files.isAudio files) /\
      NoDup (metadata_conditions (metadata dataset)) /\
      (forall c, In c (metadata_conditions (metadata dataset)) <->
                 In c (map (@label num) (samples dataset))) /\
      incl (metadata_conditions (metadata dataset)) Files.labels.
Proof.
  intros num JN JM audioProcessor idNow reads createdNow updatedNow files Hsound.
  destruct (collectSamples_sound audioProcessor reads files Hsound O [])
    as [added [Hrun [Hnames Hall]]].
  unfold loadLocalDataset; rewrite Hrun; cbn [bind app].
  eexists; split; [reflexivity|]; cbn [samples metadata totalSamples
                                       metadata_conditions].
  split; [exact Hnames | split; [exact Hall | split; [|split; [|split]]]].
  - rewrite <- (length_map (@filename num)), Hnames; apply length_map.
  - apply distinct_NoDup.
  - intros c; apply distinct_In.
  - intros c Hc; apply (proj1 (distinct_In _ _)) in Hc.
    apply in_map_iff in Hc; destruct Hc as [s [<- Hs]].
    rewrite Forall_forall in Hall; destruct (Hall s Hs) as [-> _].
    apply extractLabelFromFilename_labels.
Qed.

Lemma loadLocalDataset_samples_witness :
  exists dataset : CoughDataset R,
    loadLocalDataset Files.decodesToWindow 0 (fun _ => Files.noReads) 0 0
      [Files.notes; Files.asthmaClip]
    = Return dataset /\
    map (@filename R) (samples dataset)
    = map file_name (filter Files.isAudio [Files.notes; Files.asthmaClip]) /\
    Forall (fun s => label s = extractLabelFromFilename (filename s) /\
                     processed (sample_metadata s) = true)
           (samples dataset) /\
    totalSamples (metadata dataset)
    = length (filter Files.isAudio [Files.notes; Files.asthmaClip]) /\
    NoDup (metadata_conditions (metadata dataset)) /\
    (forall c, In c (metadata_conditions (metadata dataset)) <->
               In c (map (@label R) (samples dataset))) /\
    incl (metadata_conditions (metadata dataset)) Files.labels.
Proof.
  apply (loadLocalDataset_samples R real_number real_math Files.decodesToWindow
           0 (fun _ => Files.noReads) 0 0 [Files.notes; Files.asthmaClip]).
  intros file _ _; exists Buffers.oneWindow; split; [reflexivity|].
  unfold Buffers.oneWindow; cbn [channelData]; rewrite repeat_length; lia.
Defined.

Section LoadFailure.
Context {num : Type} {JN : JsNumber num} {JM : JsMath num}.
Variable audioProcessor : AudioProcessor (num := num).
Variable reads : nat -> Reads.

Lemma processAudioFile_short (r : Reads) (file : File)
    (audioBuffer : AudioBuffer num) :
  processAudioBlob audioProcessor (file_blob file) = Return audioBuffer ->
  (Z.of_nat (length (channelData audioBuffer)) < 1536)%Z ->
  processAudioFile audioProcessor r file = Throw "RangeError"%string.
Proof.
  intros Hdecode Hshort; unfold processAudioFile.
  rewrite Hdecode; cbn [bind].
  destruct (analyzeCoughCharacteristics_outcome num JN JM (analysisNow r)
              audioBuffer) as [[_ Hthrow] | [Hlong _]]; [|lia].
  now rewrite Hthrow.
Qed.

Lemma collectSamples_prefix (before rest : list File) :
  (forall file, In file before -> Files.isAudio file = true ->
     exists audioBuffer : AudioBuffer num,
       processAudioBlob audioProcessor (file_blob file) = Return audioBuffer /\
       (1536 <= Z.of_nat (length (channelData audioBuffer)))%Z) ->
  forall (i : nat) (samples : list (CoughSample num)),
  exists added : list (CoughSample num),
    collectSamples audioProcessor reads i (before ++ rest) samples
    = collectSamples audioProcessor reads (i + length before) rest
        (samples ++ added).
Proof.
  induction before as [|file before IH]; intros Hsound i samples.
  - exists []; now rewrite app_nil_r, Nat.add_0_r.
  - cbn [app collectSamples length].
    fold (Files.isAudio file).
    replace (i + S (length before))%nat with (S i + length before)%nat by lia.
    destruct (Files.isAudio file) eqn:Haudio.
    + destruct (processAudioFile_sound audioProcessor (reads i) file)
        as [sample [Hrun _]]; [apply Hsound; [now left | exact Haudio]|].
      rewrite Hrun; cbn [bind].
      destruct (IH (fun f Hf => Hsound f (or_intror Hf)) (S i)
                   (samples ++ [sample])) as [added Hrest].
      exists (sample :: added); now rewrite Hrest, <- app_assoc.
    + apply IH; intros f Hf; apply Hsound; now right.
Qed.

End LoadFailure.

(** X20: one short clip makes the whole upload fail: when the first audio
    file that is not sound decodes to a buffer of fewer than 1536 samples,
    [loadLocalDataset] throws the RangeError of the feature extractor and
    returns no dataset, whatever files come before and after it. *)
Theorem loadLocalDataset_short_clip :
  forall (num : Type) (JN : JsNumber num) (JM : JsMath num)
         (audioProcessor : AudioProcessor (num := num))
         (idNow : Z) (reads : nat -> Reads) (createdNow updatedNow : Z)
         (before after : list File) (file : File)
         (audioBuffer : AudioBuffer num),
    (forall f, In f before -> Files.isAudio f = true ->
       exists b : AudioBuffer num,
         processAudioBlob audioProcessor (file_blob f) = Return b /\
         (1536 <= Z.of_nat (length (channelData b)))%Z) ->
    Files.isAudio file = true ->
    processAudioBlob audioProcessor (file_blob file) = Return audioBuffer ->
    (Z.of_nat (length (channelData audioBuffer)) < 1536)%Z ->
    loadLocalDataset audioProcessor idNow reads createdNow updatedNow
      (before ++ file :: after)
    = Throw "RangeError"%string.
Proof.
  intros num JN JM audioProcessor idNow reads createdNow updatedNow
         before after file audioBuffer Hsound Haudio Hdecode Hshort.
  unfold loadLocalDataset.
  destruct (collectSamples_prefix audioProcessor reads before (file :: after)
              Hsound O []) as [added Hrun].
  rewrite Hrun; cbn [collectSamples].
  fold (Files.isAudio file); rewrite Haudio.
  rewrite (processAudioFile_short audioProcessor _ file audioBuffer Hdecode Hshort).
  reflexivity.
Qed.

Lemma loadLocalDataset_short_clip_witness :
  loadLocalDataset Files.decodesToRamp 0 (fun _ => Files.noReads) 0 0
    ([Files.notes] ++ Clips.shortClip :: [Files.asthmaClip])
  = Throw "RangeError"%string.
Proof.
  apply (loadLocalDataset_short_clip R real_number real_math
           Files.decodesToRamp 0 (fun _ => Files.noReads) 0 0
           [Files.notes] [Files.asthmaClip] Clips.shortClip
           {| channelData := Buffers.ramp; sampleRate := 44100%R |}).
  - intros f [<-|[]] Haudio; discriminate.
  - reflexivity.
  - reflexivity.
  - simpl; lia.
Defined.

(** ** Labels from file names *)

Section IncludesFacts.

Lemma prefix_append (p q s : string) :
  String.prefix (String.append p q) s = true ->
  exists r, s = String.append p r /\ String.prefix q r = true.
Proof.
  revert s; induction p as [|c p IH]; intros s H.
  - exists s; auto.
  - destruct s as [|d s]; [discriminate|].
    cbn [String.append String.prefix] in H.
    destruct (Ascii.ascii_dec c d) as [->|]; [|discriminate].
    destruct (IH s H) as [r [-> Hr]].
    exists r; auto.
Qed.

Lemma includes_tail (c : Ascii.ascii) (s t : string) :
  JsString.includes s t = true -> JsString.includes (String c s) t = true.
Proof.
  intros H; cbn [JsString.includes]; rewrite H; apply orb_true_r.
Qed.

Lemma includes_append_l (p r t : string) :
  JsString.includes r t = true ->
  JsString.includes (String.append p r) t = true.
Proof.
  induction p as [|c p IH]; intros H; [exact H|].
  cbn [String.append]; now apply includes_tail, IH.
Qed.

Lemma includes_prefix (s t : string) :
  String.prefix t s = true -> JsString.includes s t = true.
Proof. intros H; destruct s; cbn [JsString.includes]; now rewrite H. Qed.

(** A string that includes [p ++ q] includes [q]. *)
Lemma includes_suffix_of_needle (p q s : string) :
  JsString.includes s (String.append p q) = true ->
  JsString.includes s q = true.
Proof.
  induction s as [|c s IH]; cbn [JsString.includes]; intros H.
  - rewrite orb_false_r in H.
    destruct (prefix_append p q _ H) as [r [E Hr]].
    destruct p; [|discriminate].
    cbn in E; subst r; now rewrite Hr.
  - apply orb_prop in H; destruct H as [H|H].
    + destruct (prefix_append p q _ H) as [r [E Hr]].
      change (JsString.includes (String c s) q = true).
      rewrite E; apply includes_append_l, includes_prefix, Hr.
    + rewrite (IH H); apply orb_true_r.
Qed.

End IncludesFacts.

(** X21: the label of a file name is one of the six labels, and the test for
    "normal" also catches "abnormal": a file name that contains "abnormal",
    in any case of the letters, and none of the words covid, corona, asthma,
    bronchitis and pneumonia is labelled "Healthy". *)
Theorem extractLabelFromFilename_abnormal :
  forall filename : string,
    In (extractLabelFromFilename filename) Files.labels /\
    (JsString.includes (JsString.toLowerCase filename) "abnormal" = true ->
     Forall (fun word =>
               JsString.includes (JsString.toLowerCase filename) word = false)
            ["covid"; "corona"; "asthma"; "bronchitis"; "pneumonia"]%string ->
     extractLabelFromFilename filename = "Healthy"%string).
Proof.
  intros filename; split; [apply extractLabelFromFilename_labels|].
  intros Hab Hnone.
  assert (Hnormal : JsString.includes (JsString.toLowerCase filename) "normal"
                    = true)
    by (apply (includes_suffix_of_needle "ab" "normal"); exact Hab).
  repeat match goal with
         | H : Forall _ (_ :: _) |- _ => inversion H; clear H; subst
         end.
  unfold extractLabelFromFilename.
  repeat match goal with
         | H : JsString.includes _ _ = _ |- _ => rewrite H; clear H
         end.
  cbn [orb]; now rewrite orb_true_r.
Qed.

Lemma extractLabelFromFilename_abnormal_witness :
  extractLabelFromFilename Clips.abnormalClip = "Healthy"%string.
Proof.
  apply (extractLabelFromFilename_abnormal Clips.abnormalClip).
  - reflexivity.
  - repeat constructor.
Defined.

(** ** The capture component *)

(** X22: [analyzeRecordedAudio] with a constructed classifier, on a
    recording that decodes to [audioBuffer].  When the buffer has fewer than
    1536 samples the RangeError of the analysis is logged to the console,
    the progress stops at 50 and the callback is not called; otherwise the
    progress reaches 100 and the callback receives the Analysis Record of
    the buffer and its prediction.  Either way the analyzing flag is cleared
    and the reset of the progress is scheduled. *)
Theorem analyzeRecordedAudio_reports :
  forall (num : Type) (JN : JsNumber num) (JM : JsMath num)
         (audioProcessor : AudioProcessor (num := num))
         (callback : CoughAnalysis num -> CoughClassification num -> outcome unit)
         (analysisNow classificationNow : Z) (blob : Blob)
         (audioBuffer : AudioBuffer num),
    processAudioBlob audioProcessor blob = Return audioBuffer ->
    (forall a c, callback a c = Return tt) ->
    ((Z.of_nat (length (channelData audioBuffer)) < 1536)%Z /\
     analyzeRecordedAudio audioProcessor new_CoughClassifier (Some callback)
       analysisNow classificationNow blob
     = [SetIsAnalyzing true; SetAnalysisProgress 0; SetAnalysisProgress 20;
        SetAnalysisProgress 50; ConsoleError "RangeError";
        SetIsAnalyzing false; SetTimeout (SetAnalysisProgress 0) 1000]) \/
    ((1536 <= Z.of_nat (length (channelData audioBuffer)))%Z /\
     exists analysis : CoughAnalysis num,
       analyzeCoughCharacteristics analysisNow audioBuffer = Return analysis /\
       analyzeRecordedAudio audioProcessor new_CoughClassifier (Some callback)
         analysisNow classificationNow blob
       = [SetIsAnalyzing true; SetAnalysisProgress 0; SetAnalysisProgress 20;
          SetAnalysisProgress 50; SetAnalysisProgress 80;
          SetAnalysisProgress 100;
          OnAnalysisComplete analysis (predict classificationNow analysis);
          SetIsAnalyzing false; SetTimeout (SetAnalysisProgress 0) 1000]).
Proof.
  intros num JN JM audioProcessor callback analysisNow classificationNow blob
         audioBuffer Hdecode Hcallback.
  unfold analyzeRecordedAudio, analyzeRecordedAudio_try.
  rewrite Hdecode.
  destruct (analyzeCoughCharacteristics_outcome num JN JM analysisNow
              audioBuffer) as [[Hshort Hthrow] | [Hlong [features [_ Hrecord]]]].
  - left; split; [exact Hshort|].
    rewrite Hthrow; reflexivity.
  - right; split; [exact Hlong|].
    rewrite Hrecord; eexists; split; [reflexivity|].
    cbn [classifyCough new_CoughClassifier loadModel isLoaded model
         CoughModel_predict].
    rewrite Hcallback; reflexivity.
Qed.

Lemma analyzeRecordedAudio_reports_witness :
  ((Z.of_nat (length (channelData Buffers.oneWindow)) < 1536)%Z /\
   analyzeRecordedAudio Files.decodesToWindow new_CoughClassifier
     (Some Clips.report) 0 0 (file_blob Clips.shortClip)
   = [SetIsAnalyzing true; SetAnalysisProgress 0; SetAnalysisProgress 20;
      SetAnalysisProgress 50; ConsoleError "RangeError";
      SetIsAnalyzing false; SetTimeout (SetAnalysisProgress 0) 1000]) \/
  ((1536 <= Z.of_nat (length (channelData Buffers.oneWindow)))%Z /\
   exists analysis : CoughAnalysis R,
     analyzeCoughCharacteristics 0 Buffers.oneWindow = Return analysis /\
     analyzeRecordedAudio Files.decodesToWindow new_CoughClassifier
       (Some Clips.report) 0 0 (file_blob Clips.shortClip)
     = [SetIsAnalyzing true; SetAnalysisProgress 0; SetAnalysisProgress 20;
        SetAnalysisProgress 50; SetAnalysisProgress 80;
        SetAnalysisProgress 100;
        OnAnalysisComplete analysis (predict 0 analysis);
        SetIsAnalyzing false; SetTimeout (SetAnalysisProgress 0) 1000]).
Proof.
  apply (analyzeRecordedAudio_reports R real_number real_math
           Files.decodesToWindow Clips.report 0 0 (file_blob Clips.shortClip)
           Buffers.oneWindow).
  - reflexivity.
  - reflexivity.
Defined.

(** X23: without an audio context, or when decoding rejects, the error of
    [processAudioBlob] is logged, the progress stops at 20 and the callback
    is not called. *)
Theorem analyzeRecordedAudio_undecodable :
  forall (num : Type) (JN : JsNumber num) (JM : JsMath num)
         (audioProcessor : AudioProcessor (num := num))
         (coughClassifier : CoughClassifier)
         (onAnalysisComplete :
            option (CoughAnalysis num -> CoughClassification num -> outcome unit))
         (analysisNow classificationNow : Z) (blob : Blob) (error : string),
    processAudioBlob audioProcessor blob = Throw error ->
    analyzeRecordedAudio audioProcessor coughClassifier onAnalysisComplete
      analysisNow classificationNow blob
    = [SetIsAnalyzing true; SetAnalysisProgress 0; SetAnalysisProgress 20;
       ConsoleError error;
       SetIsAnalyzing false; SetTimeout (SetAnalysisProgress 0) 1000] /\
    (audioContext audioProcessor = None -> error = "Error"%string).
Proof.
  intros num JN JM audioProcessor coughClassifier onAnalysisComplete
         analysisNow classificationNow blob error Hdecode.
  split.
  - unfold analyzeRecordedAudio, analyzeRecordedAudio_try.
    rewrite Hdecode; reflexivity.
  - intros Hnone; unfold processAudioBlob in Hdecode.
    rewrite Hnone in Hdecode; congruence.
Qed.

Lemma analyzeRecordedAudio_undecodable_witness :
  analyzeRecordedAudio (num := R) {| audioContext := None |}
    new_CoughClassifier None 0 0 (file_blob Clips.shortClip)
  = [SetIsAnalyzing true; SetAnalysisProgress 0; SetAnalysisProgress 20;
     ConsoleError "Error";
     SetIsAnalyzing false; SetTimeout (SetAnalysisProgress 0) 1000] /\
  (audioContext (num := R) {| audioContext := None |} = None ->
   "Error"%string = "Error"%string).
Proof.
  apply (analyzeRecordedAudio_undecodable R real_number real_math
           {| audioContext := None |} new_CoughClassifier None 0 0
           (file_blob Clips.shortClip) "Error"%string).
  reflexivity.
Defined.


(** ** The level meter *)

Lemma allFrom_spec (f : Z -> bool) (n : nat) :
  forall z : Z,
    allFrom f n z = true ->
    forall v : Z, (z <= v < z + Z.of_nat n)%Z -> f v = true.
Proof.
  induction n as [|n IH]; intros z H v Hv; [lia|].
  cbn [allFrom] in H; apply andb_prop in H; destruct H as [Hz Hrest].
  destruct (Z.eq_dec v z) as [->|Hne]; [exact Hz|].
  apply (IH (z + 1)%Z Hrest); lia.
Qed.

(** Adding a byte to a sum of at most 127 bytes is exact in binary64. *)
Lemma byte_add_check :
  allFrom
    (fun sum =>
       (fun total : float =>
          allFrom
            (fun value =>
               PrimFloat.Leibniz.eqb
                 (total + Binary64.of_Z value)%float
                 (Binary64.of_Z (sum + value)))
            256 0)
         (Binary64.of_Z sum))
    (Z.to_nat 32386) 0 = true.
Proof. vm_cast_no_check (eq_refl true). Qed.

Lemma byte_add_exact (sum value : Z) :
  (0 <= sum <= 32385)%Z -> (0 <= value <= 255)%Z ->
  (Binary64.of_Z sum + Binary64.of_Z value)%float = Binary64.of_Z (sum + value).
Proof.
  intros Hs Hv.
  pose proof (allFrom_spec _ _ 0%Z byte_add_check sum ltac:(lia)) as C.
  cbv beta in C.
  pose proof (allFrom_spec _ 256 0%Z C value ltac:(lia)) as D.
  cbv beta in D.
  now apply FloatAxioms.Leibniz.eqb_spec.
Qed.

Lemma byte_sum_binary64 (dataArray : list Z) :
  Forall (fun value => 0 <= value <= 255)%Z dataArray ->
  forall sum : Z,
    (0 <= sum)%Z ->
    (sum + 255 * Z.of_nat (length dataArray) <= 32640)%Z ->
    fold_left (fun s value => add s (of_int value)) dataArray
              (Binary64.of_Z sum)
    = Binary64.of_Z (fold_left Z.add dataArray sum) /\
    (sum <= fold_left Z.add dataArray sum
     <= sum + 255 * Z.of_nat (length dataArray))%Z.
Proof.
  induction 1 as [|value rest Hvalue _ IH]; intros sum Hsum Hfit.
  - cbn; split; [reflexivity | lia].
  - cbn [fold_left length] in *.
    cbn [add of_int float_number].
    rewrite byte_add_exact by lia.
    destruct (IH (sum + value)%Z) as [E B]; [lia | lia |].
    split; [exact E | lia].
Qed.

(** For every number [n <= 128] of bytes and every sum of [n] bytes the
    level lies between 0 and 100, and it is 100 exactly when the sum exceeds
    [85 n]. *)
Lemma level_check :
  allFrom
    (fun n =>
       allFrom
         (fun sum =>
            (fun level : float =>
               PrimFloat.leb 0 level &&
               PrimFloat.leb level 100 &&
               Bool.eqb (PrimFloat.Leibniz.eqb level 100) (85 * n <? sum)%Z)
              (levelOfSum sum n))
         (Z.to_nat (255 * n + 1)) 0)
    128 1 = true.
Proof. vm_cast_no_check (eq_refl true). Qed.

(** X24: in binary64, the level that [updateAudioLevel] shows for an array
    of at most 128 frequency bytes, the number of bins of an analyser with
    [fftSize = 256], lies between 0 and 100, and the meter is saturated at
    100 exactly when the average byte exceeds 85, a third of full scale; at
    an average of exactly 85 the level is 99.99999999999999. *)
Theorem audioLevel_range :
  forall dataArray : list Z,
    (1 <= length dataArray <= 128)%nat ->
    Forall (fun value => 0 <= value <= 255)%Z dataArray ->
    PrimFloat.leb 0 (audioLevel (num := float) dataArray) = true /\
    PrimFloat.leb (audioLevel (num := float) dataArray) 100 = true /\
    (audioLevel (num := float) dataArray = 100%float <->
     (85 * Z.of_nat (length dataArray) < fold_left Z.add dataArray 0)%Z).
Proof.
  intros dataArray Hlen Hbytes.
  destruct (byte_sum_binary64 dataArray Hbytes 0%Z) as [Hsum Hbound];
    [lia | lia |].
  assert (E : audioLevel (num := float) dataArray
              = levelOfSum (fold_left Z.add dataArray 0%Z)
                           (Z.of_nat (length dataArray))).
  { unfold audioLevel, levelOfSum, of_nat.
    change (zero : float) with (Binary64.of_Z 0).
    now rewrite Hsum. }
  rewrite E.
  set (n := Z.of_nat (length dataArray)) in *.
  set (sum := fold_left Z.add dataArray 0%Z) in *.
  pose proof (allFrom_spec _ 128 1%Z level_check n ltac:(lia)) as C.
  cbv beta in C.
  pose proof (allFrom_spec _ _ 0%Z C sum ltac:(lia)) as D.
  cbv beta in D.
  apply andb_prop in D; destruct D as [D Hsat].
  apply andb_prop in D; destruct D as [Hlo Hhi].
  repeat apply conj; [exact Hlo | exact Hhi | |].
  - intros H100; apply FloatAxioms.Leibniz.eqb_spec in H100.
    rewrite H100 in Hsat; apply Bool.eqb_prop in Hsat.
    symmetry in Hsat; now apply Z.ltb_lt in Hsat.
  - intros Hgt; apply Z.ltb_lt in Hgt.
    rewrite Hgt in Hsat.
    apply FloatAxioms.Leibniz.eqb_spec.
    now destruct (PrimFloat.Leibniz.eqb (levelOfSum sum n) 100).
Qed.

(** Three bytes of 85: the average is 85 and the meter is not saturated. *)
Lemma audioLevel_range_witness :
  (PrimFloat.leb 0 (audioLevel (num := float) Clips.levels) = true /\
   PrimFloat.leb (audioLevel (num := float) Clips.levels) 100 = true /\
   (audioLevel (num := float) Clips.levels = 100%float <->
    (85 * Z.of_nat (length Clips.levels)
     < fold_left Z.add Clips.levels 0)%Z)) /\
  audioLevel (num := float) Clips.levels = 99.99999999999999%float.
Proof.
  split.
  - apply (audioLevel_range Clips.levels).
    + simpl; lia.
    + repeat constructor; lia.
  - reflexivity.
Defined.
